(** * The revision-diff transpilation pipeline of [scripts/bigquery.py]

    A shallow embedding of the script: every Python function of the
    pipeline becomes a Rocq function of the same name, written in a small
    state-and-exception monad over an explicit world (file system, state
    of the external tools, console).  The external tools ([git],
    [jsonschema-transpiler]) and the [json] library are parameters of the
    embedding; a concrete model of [git] is given afterwards to run the
    pipeline on concrete repositories. *)

From Stdlib Require Import ZArith String Ascii List Lia Bool.
From stdpp Require Import base option list gmap strings pretty fin_maps.

Open Scope string_scope.
Open Scope list_scope.

(** ** Python strings

    [str] values are modelled as [string]: the bytes of the UTF-8
    encoding of the text.  [strip] and [split] look at the white space
    of ASCII; [int] reads the digits and the white space of every
    script. *)

Module PyStr.

Definition chars (s : string) : list ascii := list_ascii_of_string s.
Definition of_chars (l : list ascii) : string := string_of_list_ascii l.

(** [str.isspace] on one ASCII character: space, [\t \n \v \f \r] and
    the separators [0x1c .. 0x1f]. *)
Definition is_space (c : ascii) : bool :=
  let n := nat_of_ascii c in
  (n =? 32)%nat || ((9 <=? n)%nat && (n <=? 13)%nat)
  || ((28 <=? n)%nat && (n <=? 31)%nat).

Fixpoint lstrip_chars (l : list ascii) : list ascii :=
  match l with
  | c :: l' => if is_space c then lstrip_chars l' else l
  | [] => []
  end.

Definition rstrip_chars (l : list ascii) : list ascii :=
  rev (lstrip_chars (rev l)).

(** [s.strip()] *)
Definition strip (s : string) : string :=
  of_chars (rstrip_chars (lstrip_chars (chars s))).

(** Splitting on one separator character, empty pieces kept:
    [s.split(".")], [s.split("\n")].  The result is never empty. *)
Fixpoint split_chars (sep : ascii) (l : list ascii) : list (list ascii) :=
  match l with
  | [] => [[]]
  | c :: l' =>
      if Ascii.eqb c sep then [] :: split_chars sep l'
      else match split_chars sep l' with
           | w :: ws => (c :: w) :: ws
           | [] => [[c]]
           end
  end.

Definition split (sep : ascii) (s : string) : list string :=
  map of_chars (split_chars sep (chars s)).

(** [s.split()]: pieces between runs of whitespace, no empty piece.
    [cur] is the piece being read, reversed. *)
Fixpoint words_chars (cur : list ascii) (l : list ascii) : list (list ascii) :=
  match l with
  | [] => match cur with [] => [] | _ => [rev cur] end
  | c :: l' =>
      if is_space c
      then match cur with
           | [] => words_chars [] l'
           | _ => rev cur :: words_chars [] l'
           end
      else words_chars (c :: cur) l'
  end.

Definition split_ws (s : string) : list string :=
  map of_chars (words_chars [] (chars s)).

(** [sep.join(l)] *)
Fixpoint join (sep : string) (l : list string) : string :=
  match l with
  | [] => ""
  | [x] => x
  | x :: l' => x +:+ sep +:+ join sep l'
  end.

(** [s[:n]] for [n >= 0] *)
Definition take (n : nat) (s : string) : string :=
  of_chars (firstn n (chars s)).

(** [s[:-n]] for [n > 0] *)
Definition drop_last (n : nat) (s : string) : string :=
  of_chars (firstn (List.length (chars s) - n) (chars s)).

Definition starts_with (p s : string) : bool := String.prefix p s.

Definition ends_with (p s : string) : bool :=
  String.prefix (of_chars (rev (chars p))) (of_chars (rev (chars s))).

(** *** Text outside ASCII

    A [str] is held as the bytes of its UTF-8 encoding.  A byte that
    belongs to no well-formed sequence stands for a character that is
    neither a digit nor white space (the lone surrogate that
    [surrogateescape] gives such a byte in a file name). *)

Definition byte (c : ascii) : N := N_of_ascii c.

Definition between (lo hi : N) (c : ascii) : bool :=
  ((lo <=? byte c) && (byte c <=? hi))%N.

Definition continuation : ascii -> bool := between 128 191.

(** Lead byte and second byte of a three-byte sequence: no overlong
    form, no surrogate. *)
Definition lead3 (b0 b1 : ascii) : bool :=
  (between 224 224 b0 && between 160 191 b1)
  || (between 225 236 b0 && continuation b1)
  || (between 237 237 b0 && between 128 159 b1)
  || (between 238 239 b0 && continuation b1).

(** Lead byte and second byte of a four-byte sequence: no overlong
    form, nothing above [U+10FFFF]. *)
Definition lead4 (b0 b1 : ascii) : bool :=
  (between 240 240 b0 && between 144 191 b1)
  || (between 241 243 b0 && continuation b1)
  || (between 244 244 b0 && between 128 143 b1).

(** The code point encoded at the head of [l] and the bytes after it;
    [None] when no well-formed sequence starts there. *)
Definition decode_head (l : list ascii) : option (N * list ascii) :=
  match l with
  | [] => None
  | b0 :: l1 =>
      if (byte b0 <? 128)%N then Some (byte b0, l1)
      else
        match l1 with
        | [] => None
        | b1 :: l2 =>
            if between 194 223 b0 && continuation b1
            then Some ((byte b0 - 192) * 64 + (byte b1 - 128), l2)%N
            else
              match l2 with
              | [] => None
              | b2 :: l3 =>
                  if lead3 b0 b1 && continuation b2
                  then Some ((byte b0 - 224) * 4096 + (byte b1 - 128) * 64
                             + (byte b2 - 128), l3)%N
                  else
                    match l3 with
                    | [] => None
                    | b3 :: l4 =>
                        if lead4 b0 b1 && continuation b2 && continuation b3
                        then Some ((byte b0 - 240) * 262144
                                   + (byte b1 - 128) * 4096
                                   + (byte b2 - 128) * 64
                                   + (byte b3 - 128), l4)%N
                        else None
                    end
              end
        end
  end.

(** The code points of a text; [None] stands for a byte outside every
    well-formed sequence.  [fuel] bounds the number of characters. *)
Fixpoint code_points (fuel : nat) (l : list ascii) : list (option N) :=
  match fuel, l with
  | S fuel', _ :: l' =>
      match decode_head l with
      | Some (cp, rest) => Some cp :: code_points fuel' rest
      | None => None :: code_points fuel' l'
      end
  | _, _ => []
  end.

(** The characters above ASCII that are white space ([str.isspace],
    and the white space [int] ignores), Unicode 14.0. *)
Definition unicode_spaces : list N :=
  [133; 160; 5760; 8192; 8193; 8194; 8195; 8196; 8197; 8198; 8199;
   8200; 8201; 8202; 8232; 8233; 8239; 8287; 12288]%N.

(** The digit zero of every run of ten decimal digits above ASCII
    (the characters with a decimal value), Unicode 14.0. *)
Definition unicode_zeros : list N :=
  [1632; 1776; 1984; 2406; 2534; 2662; 2790; 2918; 3046; 3174; 3302;
   3430; 3558; 3664; 3792; 3872; 4160; 4240; 6112; 6160; 6470; 6608;
   6784; 6800; 6992; 7088; 7232; 7248; 42528; 43216; 43264; 43472;
   43504; 43600; 44016; 65296; 66720; 68912; 69734; 69872; 69942;
   70096; 70384; 70736; 70864; 71248; 71360; 71472; 71904; 72016;
   72784; 73040; 73120; 92768; 92864; 93008; 120782; 120792; 120802;
   120812; 120822; 123200; 123632; 125264; 130032]%N.

(** What a character is to [int]. *)
Inductive token : Type :=
  | Blank
  | Digit (d : Z)
  | Sign (negative : bool)
  | Underscore
  | Other.

(** [int] ignores the ASCII white space of C ([\t \n \v \f \r] and the
    space, not the separators [0x1c .. 0x1f]) and the white space above
    ASCII; it reads the decimal digits of every script. *)
Definition classify (cp : N) : token :=
  if (cp <? 128)%N then
    if (cp =? 32)%N || ((9 <=? cp) && (cp <=? 13))%N then Blank
    else if ((48 <=? cp) && (cp <=? 57))%N then Digit (Z.of_N cp - 48)
    else if (cp =? 43)%N then Sign false
    else if (cp =? 45)%N then Sign true
    else if (cp =? 95)%N then Underscore
    else Other
  else if existsb (N.eqb cp) unicode_spaces then Blank
  else match List.find (fun z => (z <=? cp) && (cp <? z + 10))%N unicode_zeros with
       | Some z => Digit (Z.of_N (cp - z))
       | None => Other
       end.

Definition tokens (s : string) : list token :=
  map (fun c => match c with Some cp => classify cp | None => Other end)
      (code_points (List.length (chars s)) (chars s)).

Fixpoint lstrip_blank (l : list token) : list token :=
  match l with
  | Blank :: l' => lstrip_blank l'
  | _ => l
  end.

(** [sys.get_int_max_str_digits()], as the interpreter starts. *)
Definition max_str_digits : N := 4300.

(** Digits of an integer literal: decimal digits, single underscores
    allowed between two digits, no more than [max_str_digits] digits.
    [count] is the number of digits read, [prev] tells whether the
    previous character was a digit. *)
Fixpoint digits (acc : Z) (count : N) (prev : bool) (l : list token) : option Z :=
  match l with
  | [] => if prev && (count <=? max_str_digits)%N then Some acc else None
  | Digit d :: l' => digits (10 * acc + d) (count + 1)%N true l'
  | Underscore :: l' => if prev then digits acc count false l' else None
  | _ => None
  end.

(** [int(s)] for a [str] argument, base 10: surrounding white space is
    ignored, then an optional sign and the digits.  [None] is
    [ValueError]. *)
Definition int (s : string) : option Z :=
  match rev (lstrip_blank (rev (lstrip_blank (tokens s)))) with
  | Sign negative :: l =>
      if negative then option_map Z.opp (digits 0 0 false l)
      else digits 0 0 false l
  | l => digits 0 0 false l
  end.

(** [b.decode()] succeeds: the bytes are well-formed UTF-8. *)
Definition decodes (s : string) : bool :=
  forallb (fun c => match c with Some _ => true | None => false end)
          (code_points (List.length (chars s)) (chars s)).

(** [str.isspace] on one character of any script. *)
Definition isspace (cp : N) : bool :=
  if (cp <? 128)%N then is_space (ascii_of_N cp)
  else existsb (N.eqb cp) unicode_spaces.

(** Every character of the text is white space: [s.strip() == ""]. *)
Definition is_blank (s : string) : bool :=
  forallb (fun c => match c with Some cp => isspace cp | None => false end)
          (code_points (List.length (chars s)) (chars s)).

(** The text is ASCII. *)
Definition is_ascii (s : string) : bool :=
  forallb (fun c => (byte c <? 128)%N) (chars s).

(** [str(n)] and [f"{n}"] for an [int] *)
Definition of_int (n : Z) : string := pretty n.

Definition all_space (l : list ascii) : Prop := Forall (fun c => is_space c = true) l.

End PyStr.

(** ** Paths and the file system

    A [pathlib] path is the list of its parts ([path.parts]); an absolute
    path starts with the part ["/"]. *)

Abbreviation Path := (list string).

Module PyPath.

(** [str(path)] *)
Definition to_str (p : Path) : string :=
  match p with
  | [] => "."
  | "/" :: rest => "/" +:+ PyStr.join "/" rest
  | _ => PyStr.join "/" p
  end.

(** [path / s]: the segments of [s] are appended; an absolute [s]
    replaces [path]. *)
Definition joinpath (p : Path) (s : string) : Path :=
  let segs := List.filter (fun x => negb (String.eqb x "" || String.eqb x "."))
                          (PyStr.split "/" s) in
  if PyStr.starts_with "/" s then "/" :: segs else p ++ segs.

(** [path.parent] *)
Definition parent (p : Path) : Path := removelast p.

(** [l[-n:]] *)
Definition last_parts {A} (n : nat) (l : list A) : list A :=
  skipn (List.length l - n) l.

(** [l[-n]] for [n > 0]; [None] is [IndexError]. *)
Definition nth_from_end {A} (n : nat) (l : list A) : option A :=
  if (List.length l <? n)%nat then None
  else List.nth_error l (List.length l - n).

Fixpoint is_prefix (p q : Path) : bool :=
  match p, q with
  | [], _ => true
  | x :: p', y :: q' => String.eqb x y && is_prefix p' q'
  | _ :: _, [] => false
  end.

(** [q] lies strictly below the directory [p]. *)
Definition below (p q : Path) : bool :=
  is_prefix p q && (List.length p <? List.length q)%nat.

(** [q] is an entry of the directory [p]. *)
Definition child_of (p q : Path) : bool :=
  is_prefix p q && (List.length q =? S (List.length p))%nat.

(** [path.name] *)
Definition name (p : Path) : string := List.last p "".

End PyPath.

Infix "</>" := PyPath.joinpath (at level 40, left associativity).

(** An entry of the file system: a directory, or a regular file with its
    text. *)
Inductive node := Dir | File (content : string).

(** The world the script runs in: the file system, the state of the
    external tools (the [git] repository), the lines printed so far and
    the counter [tempfile] draws names from. *)
Record World (E : Type) := mkWorld {
  fs : gmap Path node;
  ext : E;
  console : list string;
  tmp_next : nat
}.
Arguments mkWorld {E} _ _ _ _.
Arguments fs {E} _.
Arguments ext {E} _.
Arguments console {E} _.
Arguments tmp_next {E} _.

Definition set_fs {E : Type} (f : gmap Path node -> gmap Path node) (w : World E) : World E :=
  mkWorld (f (fs w)) (ext w) (console w) (tmp_next w).

Definition set_ext {E : Type} (f : E -> E) (w : World E) : World E :=
  mkWorld (fs w) (f (ext w)) (console w) (tmp_next w).

(** ** Exceptions and the monad of the script *)

Inductive exn :=
| CalledProcessError (returncode : Z) (cmd : list string)
| FileNotFoundError (what : string)
| FileExistsError (what : string)
| IsADirectoryError (what : string)
| NotADirectoryError (what : string)
| AttributeError (type_name attr : string)
| AssertionError (msg : string)
| ValueError (msg : string)
| IndexError (msg : string)
| JSONDecodeError.

Inductive outcome (A : Type) :=
| Normal (a : A)
| Raise (e : exn).
Arguments Normal {A} _.
Arguments Raise {A} _.

(** A computation runs in a world and ends normally or with an exception;
    the effects made before an exception stay. *)
Definition M (E A : Type) : Type := World E -> outcome A * World E.

Definition ret {E A : Type} (a : A) : M E A := fun w => (Normal a, w).

Definition raise {E A : Type} (e : exn) : M E A := fun w => (Raise e, w).

Definition bind {E A B : Type} (c : M E A) (k : A -> M E B) : M E B :=
  fun w =>
    match c w with
    | (Normal a, w') => k a w'
    | (Raise e, w') => (Raise e, w')
    end.

Declare Scope py_scope.
Delimit Scope py_scope with py.
Notation "x <- c1 ;; c2" := (bind c1 (fun x => c2))
  (at level 100, c1 at next level, right associativity) : py_scope.
Notation "c1 ;;; c2" := (bind c1 (fun _ => c2))
  (at level 100, right associativity) : py_scope.
Open Scope py_scope.

(** [assert cond, msg] *)
Definition assert {E : Type} (cond : bool) (msg : string) : M E unit :=
  if cond then ret tt else raise (AssertionError msg).

(** [print(line)] *)
Definition print {E : Type} (line : string) : M E unit :=
  fun w => (Normal tt, mkWorld (fs w) (ext w) (console w ++ [line]) (tmp_next w)).

(** [try: body / except Exception as e: raise e]: the handler raises the
    exception it caught, so the block behaves as [body]. *)
Definition try_except_reraise {E A : Type} (body : M E A) : M E A :=
  fun w =>
    match body w with
    | (Normal a, w') => (Normal a, w')
    | (Raise e, w') => raise e w'
    end.

(** [try: body / finally: fin], where [fin] has no [return]: [fin] runs
    whatever [body] did; an exception of [fin] replaces the outcome of
    [body], otherwise the outcome of [body] stands. *)
Definition try_finally {E A : Type} (body : M E A) (fin : M E unit) : M E A :=
  fun w =>
    match body w with
    | (r, w') =>
        match fin w' with
        | (Normal _, w'') => (r, w'')
        | (Raise e, w'') => (Raise e, w'')
        end
    end.

(** [try: body / finally: return fin]: [fin] runs whatever [body] did and
    the function returns its value; an exception pending from [body] is
    discarded by that [return].  Only an exception of [fin] itself leaves
    the block. *)
Definition try_finally_return {E A B : Type} (body : M E A) (fin : M E B) : M E B :=
  fun w =>
    match body w with
    | (_, w') => fin w'
    end.

(** [for x in l: body x] *)
Fixpoint for_each {E A : Type} (l : list A) (body : A -> M E unit) : M E unit :=
  match l with
  | [] => ret tt
  | x :: l' => body x ;;; for_each l' body
  end.

(** A computation that ends with an exception in every world. *)
Definition always_raises {E A : Type} (c : M E A) : Prop :=
  forall w, exists e w', c w = (Raise e, w').

(** A schema source with namespace [schemas]. *)
Definition reserved (path : Path) : Prop :=
  exists doctype filename, PyPath.last_parts 3 path = ["schemas"; doctype; filename].

(** ** File-system operations of [pathlib], [tempfile] and [shutil] *)

Module PyFs.
Section Ops.
Context {E : Type}.

Definition is_dir_in (f : gmap Path node) (p : Path) : bool :=
match f !! p with Some Dir => true | _ => false end.

(** [path.is_dir()] *)
Definition is_dir (p : Path) (w : World E) : bool := is_dir_in (fs w) p.

Definition exists_in (f : gmap Path node) (p : Path) : bool :=
match f !! p with Some _ => true | None => false end.

(** The directory an entry is created in must exist. *)
Definition parent_is_dir (f : gmap Path node) (p : Path) : bool :=
match PyPath.parent p with
| [] => true
| q => is_dir_in f q
end.

(** [path.mkdir()] *)
Definition mkdir (p : Path) : M E unit :=
fun w =>
  if exists_in (fs w) p then raise (FileExistsError (PyPath.to_str p)) w
  else if parent_is_dir (fs w) p
       then (Normal tt, set_fs (fun f => <[p := Dir]> f) w)
       else raise (FileNotFoundError (PyPath.to_str p)) w.

(** [path.open("w")]: the file is created, or emptied if it exists. *)
Definition open_w (p : Path) : M E unit :=
fun w =>
  if is_dir_in (fs w) p then raise (IsADirectoryError (PyPath.to_str p)) w
  else if parent_is_dir (fs w) p
       then (Normal tt, set_fs (fun f => <[p := File ""]> f) w)
       else raise (FileNotFoundError (PyPath.to_str p)) w.

(** [fp.write(text)] on the file opened at [p] *)
Definition write (p : Path) (text : string) : M E unit :=
fun w =>
  match fs w !! p with
  | Some (File c) => (Normal tt, set_fs (fun f => <[p := File (c +:+ text)]> f) w)
  | _ => raise (ValueError "I/O operation on closed file") w
  end.

(** [path.open("r")] followed by reading the whole file *)
Definition read_text (p : Path) : M E string :=
fun w =>
  match fs w !! p with
  | Some (File c) => (Normal c, w)
  | Some Dir => raise (IsADirectoryError (PyPath.to_str p)) w
  | None => raise (FileNotFoundError (PyPath.to_str p)) w
  end.

Definition entries (f : gmap Path node) : list Path := (map_to_list f).*1.

(** [dir.glob("*" + suffix)]: the entries of [dir] whose name ends
  with [suffix]; nothing when [dir] is not a directory. *)
Definition glob_suffix (suffix : string) (dir : Path) (w : World E) : list Path :=
if is_dir dir w
then List.filter
       (fun q => PyPath.child_of dir q && PyStr.ends_with suffix (PyPath.name q))
       (entries (fs w))
else [].

(** [dir.glob("**/*" + suffix)]: the entries at any depth below [dir]
  whose name ends with [suffix].  The generator is run at once, on
  the file system of the call. *)
Definition rglob_suffix (suffix : string) (dir : Path) (w : World E) : list Path :=
if is_dir dir w
then List.filter
       (fun q => PyPath.below dir q && PyStr.ends_with suffix (PyPath.name q))
       (entries (fs w))
else [].

Definition tmp_candidate (n : nat) : Path := ["/"; "tmp"; "tmp" +:+ pretty n].

(** [tempfile.mkdtemp()]: a directory of a name not in use is created
  under [/tmp]; after [TMP_MAX] names in use the call gives up. *)
Fixpoint mkdtemp_from (tries : nat) (n : nat) : M E Path :=
fun w =>
  match tries with
  | O => raise (FileExistsError "No usable temporary directory name found") w
  | S tries' =>
      if exists_in (fs w) (tmp_candidate n) then mkdtemp_from tries' (S n) w
      else if is_dir_in (fs w) ["/"; "tmp"]
           then (Normal (tmp_candidate n),
                 mkWorld (<[tmp_candidate n := Dir]> (fs w)) (ext w) (console w) (S n))
           else raise (FileNotFoundError "/tmp") w
  end.

Definition TMP_MAX : nat := 100 * 100.

Definition mkdtemp : M E Path := fun w => mkdtemp_from TMP_MAX (tmp_next w) w.

(** [shutil.rmtree(p)] *)
Definition rmtree (p : Path) : M E unit :=
fun w =>
  match fs w !! p with
  | Some Dir =>
      (Normal tt,
       set_fs (fun f => filter (fun kv => PyPath.is_prefix p kv.1 = false) f) w)
  | Some (File _) => raise (NotADirectoryError (PyPath.to_str p)) w
  | None => raise (FileNotFoundError (PyPath.to_str p)) w
  end.

(** The tree below [src], re-rooted at [dst]. *)
Definition moved (src dst : Path) (f : gmap Path node) : gmap Path node :=
list_to_map
  (List.map (fun kv => (dst ++ skipn (List.length src) kv.1, kv.2))
            (List.filter (fun kv => PyPath.is_prefix src kv.1) (map_to_list f))).

(** [shutil.copytree(src, dst)] *)
Definition copytree (src dst : Path) : M E unit :=
fun w =>
  if negb (is_dir src w) then raise (NotADirectoryError (PyPath.to_str src)) w
  else if exists_in (fs w) dst then raise (FileExistsError (PyPath.to_str dst)) w
  else if parent_is_dir (fs w) dst
       then (Normal tt, set_fs (fun f => moved src dst f ∪ f) w)
       else raise (FileNotFoundError (PyPath.to_str dst)) w.

End Ops.
End PyFs.

(** ** Values that reach an attribute access

    The script is dynamically typed; three classes of objects have an
    attribute looked up on them. *)
Inductive pyval :=
| VStr (s : string)
| VPath (p : Path)
| VCompletedProcess (returncode : Z) (stdout : string).

Definition type_name (v : pyval) : string :=
  match v with
  | VStr _ => "str"
  | VPath _ => "PosixPath"
  | VCompletedProcess _ _ => "CompletedProcess"
  end.

(** What [subprocess.run] observes of a command: the process ran and
    exited with a code and some standard output, or it could not be
    started. *)
Inductive completed :=
| Completed (returncode : Z) (stdout : string)
| NotStarted.

Definition LF : ascii := "010"%char.

(** ** The script *)

Section Pipeline.

(** State of the external tools, and parsed JSON documents. *)
Context {E JSON : Type}.

(** Running an external command ([git], [jsonschema-transpiler]) in a
    world. *)
Variable exec : list string -> World E -> completed * World E.

(** [json.loads] ([None]: the text is not JSON) and [json.dumps] with
    [indent=2]. *)
Variable json_loads : string -> option JSON.
Variable json_dumps : JSON -> string.

(** [ROOT = Path(__file__).parent.parent] *)
Variable ROOT : Path.

Definition get_world : M E (World E) := fun w => (Normal w, w).

(** [v.stdout.decode()] *)
Definition attr_stdout (v : pyval) : M E string :=
  match v with
  | VCompletedProcess _ out => ret out
  | _ => raise (AttributeError (type_name v) "stdout")
  end.

(** [list(v.glob("*" + suffix))] *)
Definition attr_glob (v : pyval) (suffix : string) : M E (list Path) :=
  match v with
  | VPath p => w <- get_world ;; ret (PyFs.glob_suffix suffix p w)
  | _ => raise (AttributeError (type_name v) "glob")
  end.

(** [json.loads(text)] *)
Definition loads (text : string) : M E JSON :=
  match json_loads text with
  | Some j => ret j
  | None => raise JSONDecodeError
  end.

(** [run(command)]: a command given as one string is split at white
    space; the standard output of a command that exits with code 0 is
    returned stripped, any other exit code is [CalledProcessError]
    ([check=True]), a program that cannot be started
    [FileNotFoundError].  The output is held as the text it decodes to
    and [strip] takes off the white space of ASCII: an output that is
    not UTF-8, or that has white space of another script at an end, is
    not described. *)
Definition run (command : string + list string) : M E string :=
  let args := match command with
              | inr l => l
              | inl s => PyStr.split_ws s
              end in
  fun w =>
    match exec args w with
    | (Completed 0 out, w') => (Normal (PyStr.strip out), w')
    | (Completed rc _, w') => (Raise (CalledProcessError rc args), w')
    | (NotStarted, w') => (Raise (FileNotFoundError (List.hd "" args)), w')
    end.

Definition transpile_args (schema_path : Path) : list string :=
  ["jsonschema-transpiler"; PyPath.to_str schema_path;
   "--normalize-case"; "--resolve"; "cast"; "--type"; "bigquery"].

Definition transpile (schema_path : Path) : M E JSON :=
  res <- run (inr (transpile_args schema_path)) ;;
  text <- attr_stdout (VStr res) ;;
  schema <- loads text ;;
  ret schema.

(** [int(filename.split(".")[-3])] *)
Definition version_of (filename : string) : M E Z :=
  match PyPath.nth_from_end 3 (PyStr.split "." filename) with
  | None => raise (IndexError "list index out of range")
  | Some seg =>
      match PyStr.int seg with
      | None => raise (ValueError ("invalid literal for int() with base 10: " +:+ seg))
      | Some version => ret version
      end
  end.

(** [f"{namespace}.{doctype}.{version}.bq"] *)
Definition bq_name (namespace doctype : string) (version : Z) : string :=
  namespace +:+ "." +:+ doctype +:+ "." +:+ PyStr.of_int version +:+ ".bq".

(** The [with out.open("w") as fp] block of [transpile_schemas]: the
    file is opened before [transpile(path)] is evaluated. *)
Definition write_schema (out path : Path) : M E unit :=
  PyFs.open_w out ;;;
  print ("writing " +:+ PyPath.to_str out) ;;;
  schema <- transpile path ;;
  PyFs.write out (json_dumps schema) ;;;
  PyFs.write out (String LF "").

(** One turn of the loop of [transpile_schemas]. *)
Definition transpile_schemas_body (output_path path : Path) : M E unit :=
  match PyPath.last_parts 3 path with
  | [namespace; doctype; filename] =>
      version <- version_of filename ;;
      if String.eqb namespace "schemas"
      then print ("skipping " +:+ PyPath.to_str path +:+ " due to wrong directory level")
      else write_schema (output_path </> bq_name namespace doctype version) path
  | _ => raise (ValueError "not enough values to unpack (expected 3)")
  end.

Definition transpile_schemas (output_path : Path) (schema_paths : list Path) : M E unit :=
  w <- get_world ;;
  assert (PyFs.is_dir output_path w) "" ;;;
  for_each schema_paths (transpile_schemas_body output_path).

(** The loop of [load_schemas]; [schemas] is the dict being filled. *)
Fixpoint load_each (paths : list Path) (schemas : gmap string JSON)
  : M E (gmap string JSON) :=
  match paths with
  | [] => ret schemas
  | path :: paths' =>
      let qualified_name := PyStr.drop_last 3 (PyPath.name path) in
      text <- PyFs.read_text path ;;
      j <- loads text ;;
      load_each paths' (<[qualified_name := j]> schemas)
  end.

Definition load_schemas (input_path : pyval) : M E (gmap string JSON) :=
  paths <- attr_glob input_path ".bq" ;;
  assert (0 <? List.length paths)%nat "" ;;;
  schemas <- load_each paths ∅ ;;
  print ("loaded " +:+ pretty (size schemas) +:+ " schemas") ;;;
  ret schemas.

Definition git_stash_size : M E nat :=
  out <- run (inl "git stash list") ;;
  ret (List.length (PyStr.split LF out)).

Definition resolve_ref (ref : string) : M E string :=
  resolved <- run (inl ("git rev-parse --abbrev-ref " +:+ ref)) ;;
  (if String.eqb resolved ref then ret tt
   else print ("resolved " +:+ ref +:+ " to " +:+ resolved)) ;;;
  ret resolved.

(** The [try] block of [_checkout_transpile_schemas]. *)
Definition checkout_and_generate (ref : string) (rev_path : Path) : M E unit :=
  run (inl ("git checkout " +:+ ref)) ;;;
  w <- get_world ;;
  let schemas := PyFs.rglob_suffix ".schema.json" (ROOT </> "schemas") w in
  transpile_schemas rev_path schemas.

(** The statements of [_checkout_transpile_schemas] before its [try]:
    the preconditions, the reference to return to and the directory of
    the revision. *)
Definition prepare_revision (ref : string) (output : Path) : M E (string * Path) :=
  w <- get_world ;;
  assert (PyFs.is_dir output w)
         ("output must be a directory: " +:+ PyPath.to_str output) ;;;
  changes <- run (inl "git diff") ;;
  assert (String.length changes =? 0)%nat
         "current git state must be clean, please stash changes" ;;;
  original_ref <- run (inl "git rev-parse --abbrev-ref HEAD") ;;
  rev <- run (inl ("git rev-parse " +:+ ref)) ;;
  print ("transpiling schemas for ref: " +:+ ref +:+ ", rev: " +:+ rev) ;;;
  let short_rev_len := 7%nat in
  let rev_path := output </> PyStr.take short_rev_len rev in
  PyFs.mkdir rev_path ;;;
  ret (original_ref, rev_path).

(** The value returned is the one of the [return] in the [finally]
    clause, the output of [git checkout]; [return rev_path] after the
    [try] statement is never reached. *)
Definition _checkout_transpile_schemas (ref : string) (output : Path) : M E string :=
  saved <- prepare_revision ref output ;;
  let original_ref := saved.1 in
  let rev_path := saved.2 in
  try_finally_return
    (try_except_reraise (checkout_and_generate ref rev_path))
    (run (inl ("git checkout " +:+ original_ref))).

(** The [finally] clause of [checkout_transpile_schemas]. *)
Definition cleanup (head_ref : string) (should_apply_stash : bool) : M E unit :=
  run (inl ("git checkout " +:+ head_ref)) ;;;
  if should_apply_stash then run (inl "git stash apply") ;;; ret tt else ret tt.

(** The function has no [return] statement: a call that ends normally
    returns [None], here [tt]. *)
Definition checkout_transpile_schemas (head_ref base_ref : string) (outdir : Path)
  : M E unit :=
  resolved_head_ref <- resolve_ref head_ref ;;
  resolved_base_ref <- resolve_ref base_ref ;;
  workdir <- PyFs.mkdtemp ;;
  before_stash_size <- git_stash_size ;;
  run (inl "git stash") ;;;
  after_stash_size <- git_stash_size ;;
  let should_apply_stash := negb (before_stash_size =? after_stash_size)%nat in
  (if should_apply_stash
   then print "NOTE: uncommitted have been detected. These will be ignored."
   else ret tt) ;;;
  rev_paths <-
    try_finally
      (try_except_reraise
         (head_rev_path <- _checkout_transpile_schemas resolved_head_ref workdir ;;
          base_rev_path <- _checkout_transpile_schemas resolved_base_ref workdir ;;
          ret (head_rev_path, base_rev_path)))
      (cleanup head_ref should_apply_stash) ;;
  head_schemas <- load_schemas (VStr rev_paths.1) ;;
  base_schemas <- load_schemas (VStr rev_paths.2) ;;
  PyFs.rmtree outdir ;;;
  PyFs.copytree workdir outdir.

Definition main : M E unit :=
  let head_ref := "HEAD" in
  let base_ref := "master" in
  run (inl "jsonschema-transpiler --version") ;;;
  checkout_transpile_schemas head_ref base_ref (ROOT </> "integration").

End Pipeline.

(** ** The rest of the script: the stub and the tests *)

Section Rest.

Context {E JSON : Type}.

(** [transform(document)]: the body is [pass], the call returns [None]. *)
Definition transform (document : JSON) : M E (option JSON) := ret None.

(** [test_transpile] and [test_transform]: [assert False]. *)
Definition test_transpile : M E unit := assert false "".
Definition test_transform : M E unit := assert false "".

End Rest.

(** ** A model of the external tools

    Modelled from the spec: [git] and [jsonschema-transpiler] are external
    programs, not code of the repository.  The model follows the commands
    the spec lists as the version-control interface ([rev-parse
    --abbrev-ref <ref>], [rev-parse <ref>], [diff], [stash], [stash list],
    [stash apply], [checkout <ref>]) and describes them as: a read-only
    query for the name of a reference; a read-only query for its revision
    hash; the modifications of tracked files, empty on a clean tree;
    setting those modifications aside; one line per stash entry;
    re-applying the newest entry; switching the current reference.
    The revisions of a modelled repository hold the same files, so that
    [checkout] moves the current reference only. *)

Module Git.

Inductive head_state :=
| OnBranch (name : string)
| Detached (rev : string).

Record Repo := mkRepo {
  HEAD : head_state;
  (** branches and tags with the revision each points to *)
  refs : list (string * string);
  (** modifications of tracked files, as [git diff] prints them *)
  changes : string;
  (** stash entries, newest first *)
  stash : list string
}.

Fixpoint lookup (name : string) (l : list (string * string)) : option string :=
  match l with
  | [] => None
  | (n, rev) :: l' => if String.eqb n name then Some rev else lookup name l'
  end.

Definition known_rev (rev : string) (r : Repo) : bool :=
  existsb (fun nr => String.eqb nr.2 rev) (refs r)
  || match HEAD r with Detached h => String.eqb h rev | OnBranch _ => false end.

(** The revision a reference names. *)
Definition rev_of (r : Repo) (name : string) : option string :=
  if String.eqb name "HEAD"
  then match HEAD r with
       | OnBranch b => lookup b (refs r)
       | Detached h => Some h
       end
  else match lookup name (refs r) with
       | Some rev => Some rev
       | None => if known_rev name r then Some name else None
       end.

(** The line [rev-parse --abbrev-ref] prints for one reference: its
    short name when it is a symbolic reference, nothing when it is a
    bare revision; [None] when it names nothing. *)
Definition abbrev_ref (r : Repo) (name : string) : option string :=
  if String.eqb name "HEAD"
  then match HEAD r with
       | OnBranch b => match lookup b (refs r) with
                       | Some _ => Some (b +:+ String LF "")
                       | None => None
                       end
       | Detached _ => Some ("HEAD" +:+ String LF "")
       end
  else match lookup name (refs r) with
       | Some _ => Some (name +:+ String LF "")
       | None => if known_rev name r then Some "" else None
       end.

(** Output of a query over several references, [None] as soon as one
    of them names nothing. *)
Fixpoint query (f : string -> option string) (names : list string) : option string :=
  match names with
  | [] => Some ""
  | n :: names' =>
      match f n, query f names' with
      | Some line, Some rest => Some (line +:+ rest)
      | _, _ => None
      end
  end.

Definition rev_line (r : Repo) (name : string) : option string :=
  option_map (fun rev => rev +:+ String LF "") (rev_of r name).

Fixpoint stash_lines (i : nat) (entries : list string) : string :=
  match entries with
  | [] => ""
  | _ :: entries' =>
      "stash@{" +:+ pretty i +:+ "}: WIP" +:+ String LF "" +:+ stash_lines (S i) entries'
  end.

Definition set_HEAD (h : head_state) (r : Repo) : Repo :=
  mkRepo h (refs r) (changes r) (stash r).

Definition checkout (r : Repo) (name : string) : option Repo :=
  if String.eqb name "HEAD" then Some r
  else match lookup name (refs r) with
       | Some _ => Some (set_HEAD (OnBranch name) r)
       | None => if known_rev name r then Some (set_HEAD (Detached name) r) else None
       end.

Definition failed (w : World Repo) : completed * World Repo :=
  (Completed 128 "", w).

Definition git (args : list string) (w : World Repo) : completed * World Repo :=
  let r := ext w in
  match args with
  | "rev-parse" :: "--abbrev-ref" :: names =>
      match query (abbrev_ref r) names with
      | Some out => (Completed 0 out, w)
      | None => failed w
      end
  | "rev-parse" :: names =>
      match query (rev_line r) names with
      | Some out => (Completed 0 out, w)
      | None => failed w
      end
  | ["diff"] => (Completed 0 (changes r), w)
  | ["stash"] =>
      if String.eqb (changes r) ""
      then (Completed 0 "No local changes to save", w)
      else (Completed 0 "Saved working directory and index state WIP",
            set_ext (fun _ => mkRepo (HEAD r) (refs r) "" (changes r :: stash r)) w)
  | ["stash"; "list"] => (Completed 0 (stash_lines 0 (stash r)), w)
  | ["stash"; "apply"] =>
      match stash r with
      | entry :: _ =>
          if String.eqb (changes r) ""
          then (Completed 0 "", set_ext (fun _ => mkRepo (HEAD r) (refs r) entry (stash r)) w)
          else (Completed 1 "", w)
      | [] => (Completed 1 "", w)
      end
  | ["checkout"] => (Completed 0 "", w)
  | ["checkout"; name] =>
      match checkout r name with
      | Some r' => (Completed 0 "", set_ext (fun _ => r') w)
      | None => (Completed 1 "", w)
      end
  | _ => (Completed 1 "", w)
  end.

(** The transpiler prints a schema for a file it can read. *)
Definition transpiler (args : list string) (w : World Repo) : completed * World Repo :=
  match args with
  | ["--version"] => (Completed 0 "jsonschema-transpiler 1.0", w)
  | file :: _ =>
      match fs w !! ([] </> file) with
      | Some (File _) => (Completed 0 "[]", w)
      | _ => (Completed 1 "", w)
      end
  | [] => (Completed 1 "", w)
  end.

Definition exec (args : list string) (w : World Repo) : completed * World Repo :=
  match args with
  | "git" :: args' => git args' w
  | "jsonschema-transpiler" :: args' => transpiler args' w
  | _ => (NotStarted, w)
  end.






(** JSON documents are kept as their text; the empty text is not a
    document. *)
Definition json_loads (text : string) : option string :=
  if String.eqb (PyStr.strip text) "" then None else Some (PyStr.strip text).

Definition json_dumps (j : string) : string := j.

End Git.

(** ** Repositories the pipeline is run on *)

Module Sample.

Definition ROOT : Path := ["/"; "repo"].

Definition schema_file : Path :=
  ["/"; "repo"; "schemas"; "telemetry"; "main"; "main.4.schema.json"].

(** A checkout of the repository with one schema, an output directory
    and [/tmp]. *)
Definition files : gmap Path node :=
  list_to_map
    [ (["/"], Dir); (["/"; "tmp"], Dir); (["/"; "repo"], Dir);
      (["/"; "repo"; "schemas"], Dir);
      (["/"; "repo"; "schemas"; "telemetry"], Dir);
      (["/"; "repo"; "schemas"; "telemetry"; "main"], Dir);
      (schema_file, File "{}");
      (["/"; "repo"; "integration"], Dir) ].

Definition branches : list (string * string) :=
  [ ("master", "1111111aaaaaaa"); ("feature", "2222222bbbbbbb") ].

(** On [master], nothing modified, no stash entry. *)
Definition clean_on_master : World Git.Repo :=
  mkWorld files (Git.mkRepo (Git.OnBranch "master") branches "" []) [] 0.

(** On [feature], a tracked file modified, no stash entry. *)
Definition dirty_on_feature : World Git.Repo :=
  mkWorld files
    (Git.mkRepo (Git.OnBranch "feature") branches "diff --git a/README.md b/README.md" [])
    [] 0.

(** A detached checkout of the revision of [feature], as a build
    server makes it; nothing modified, no stash entry. *)
Definition detached_at_feature : World Git.Repo :=
  mkWorld files (Git.mkRepo (Git.Detached "2222222bbbbbbb") branches "" []) [] 0.

Definition outdir : Path := ROOT </> "integration".

Definition diff (head_ref base_ref : string) : M Git.Repo unit :=
  checkout_transpile_schemas Git.exec Git.json_loads Git.json_dumps ROOT
    head_ref base_ref outdir.

Definition revision (ref : string) (output : Path) : M Git.Repo string :=
  _checkout_transpile_schemas Git.exec Git.json_loads Git.json_dumps ROOT ref output.

(** A schema placed one level too high: its namespace reads
    [schemas], and its name carries no version. *)
Definition misplaced_draft : Path :=
  ["/"; "repo"; "schemas"; "pioneer"; "draft.schema.json"].

(** The same, with a version. *)
Definition misplaced_versioned : Path :=
  ["/"; "repo"; "schemas"; "pioneer"; "study.1.schema.json"].

Definition transpile_all (output_path : Path) (paths : list Path) : M Git.Repo unit :=
  transpile_schemas Git.exec Git.json_loads Git.json_dumps output_path paths.

Definition turn (output_path path : Path) : M Git.Repo unit :=
  transpile_schemas_body Git.exec Git.json_loads Git.json_dumps output_path path.

(** An output directory holding the one schema [a.b.1.bq]. *)
Definition loaded_dir : Path := ["/"; "out"].

Definition one_schema : World unit :=
  mkWorld
    (list_to_map [ (["/"], Dir); (loaded_dir, Dir);
                   (loaded_dir ++ ["a.b.1.bq"], File "[]");
                   (loaded_dir ++ ["notes.txt"], File "x") ])
    tt [] 0.

(** The checkout on [master] after a first run left the directory of
    the revision of [master] under [/tmp]. *)
Definition revisited : World Git.Repo :=
  set_fs (fun f => <[ ["/"; "tmp"; "1111111"] := Dir ]> f) clean_on_master.

(** An output directory with two schemas and a file of another kind. *)
Definition two_schemas : World unit :=
  mkWorld
    (list_to_map [ (["/"], Dir); (loaded_dir, Dir);
                   (loaded_dir ++ ["a.b.1.bq"], File "[]");
                   (loaded_dir ++ ["a.b.2.bq"], File "[1]");
                   (loaded_dir ++ ["notes.txt"], File "x") ])
    tt [] 0.

(** The checkout with two versions of one document type. *)
Definition version_3 : Path :=
  ["/"; "repo"; "schemas"; "ns"; "doc"; "1.2.3.schema.json"].

Definition version_4 : Path :=
  ["/"; "repo"; "schemas"; "ns"; "doc"; "1.2.4.schema.json"].

Definition two_versions : World Git.Repo :=
  set_fs (fun f => <[ ["/"; "repo"; "schemas"; "ns"] := Dir ]>
                   (<[ ["/"; "repo"; "schemas"; "ns"; "doc"] := Dir ]>
                   (<[ version_3 := File "{}" ]> (<[ version_4 := File "{}" ]> f))))
         clean_on_master.

(** A transpiler that is not installed: no command can be started. *)
Definition nothing_installed (args : list string) (w : World unit)
  : completed * World unit := (NotStarted, w).

(** A tool that prints white space only. *)
Definition prints_blank (args : list string) (w : World unit)
  : completed * World unit := (Completed 0 (String LF " "), w).

End Sample.

(** ** Notions used to state properties *)

(** The argument vector [run] passes to [subprocess.run]. *)
Definition command_args (command : string + list string) : list string :=
  match command with inr l => l | inl s => PyStr.split_ws s end.

(** The world in which [write_schema] runs the transpiler: the output
    file has been created, or emptied, and the notice printed. *)
Definition opened {E : Type} (out : Path) (w : World E) : World E :=
  mkWorld (<[out := File ""]> (fs w)) (ext w)
          (console w ++ ["writing " +:+ PyPath.to_str out]) (tmp_next w).

(** The key [load_schemas] derives from a path: [path.parts[-1][:-3]]. *)
Definition stem (path : Path) : string := PyStr.drop_last 3 (PyPath.name path).

(** The number of line feeds of a text. *)
Definition newlines (l : list ascii) : nat :=
  List.length (List.filter (fun c => Ascii.eqb c LF) l).





(** * Properties *)

(** ** The monad *)

Section MonadFacts.
Context {E : Type}.

Lemma bind_normal {A B : Type} (c : M E A) (k : A -> M E B) w a w' :
  c w = (Normal a, w') -> bind c k w = k a w'.
Proof. intros H. unfold bind. now rewrite H. Qed.

Lemma bind_raise {A B : Type} (c : M E A) (k : A -> M E B) w e w' :
  c w = (Raise e, w') -> bind c k w = (Raise e, w').
Proof. intros H. unfold bind. now rewrite H. Qed.

Lemma always_raises_bind_l {A B : Type} (c : M E A) (k : A -> M E B) :
  always_raises c -> always_raises (bind c k).
Proof.
  intros H w. destruct (H w) as (e & w' & Hc).
  exists e, w'. now apply bind_raise.
Qed.

Lemma always_raises_bind_r {A B : Type} (c : M E A) (k : A -> M E B) :
  (forall a, always_raises (k a)) -> always_raises (bind c k).
Proof.
  intros H w. unfold bind.
  destruct (c w) as [[a | e] w'].
  - apply H.
  - now exists e, w'.
Qed.

Lemma always_raises_raise {A : Type} (e : exn) : always_raises (@raise E A e).
Proof. intros w. now exists e, w. Qed.

Lemma bind_ext_l {A B : Type} (c c' : M E A) (k : A -> M E B) :
  (forall w, c w = c' w) -> forall w, bind c k w = bind c' k w.
Proof. intros H w. unfold bind. now rewrite H. Qed.

Lemma bind_ext_r {A B : Type} (c : M E A) (k k' : A -> M E B) :
  (forall a w, k a w = k' a w) -> forall w, bind c k w = bind c k' w.
Proof. intros H w. unfold bind. destruct (c w) as [[a | e] w']; [ apply H | reflexivity ]. Qed.

(** The [return] of a [finally] clause discards what the [try] block
    did: the outcome is the one of the clause. *)
Lemma try_finally_return_outcome {A B : Type} (body : M E A) (fin : M E B) w :
  try_finally_return body fin w = fin (body w).2.
Proof. unfold try_finally_return. now destruct (body w). Qed.

Lemma try_except_reraise_id {A : Type} (body : M E A) w :
  try_except_reraise body w = body w.
Proof. unfold try_except_reraise, raise. now destruct (body w) as [[a | e] w']. Qed.

(** Without [return] in the [finally] clause an exception of the [try]
    block survives a clause that ends normally. *)
Lemma try_finally_raise {A : Type} (body : M E A) (fin : M E unit) w e w1 w2 :
  body w = (Raise e, w1) -> fin w1 = (Normal tt, w2) ->
  try_finally body fin w = (Raise e, w2).
Proof. intros Hb Hf. unfold try_finally. now rewrite Hb, Hf. Qed.

End MonadFacts.

(** ** Splitting and stripping text *)

Section StringFacts.
Import PyStr.

Lemma chars_of_chars (l : list ascii) : chars (of_chars l) = l.
Proof. apply list_ascii_of_string_of_list_ascii. Qed.

Lemma of_chars_chars (s : string) : of_chars (chars s) = s.
Proof. apply string_of_list_ascii_of_string. Qed.

Lemma chars_app (a b : string) : chars (a +:+ b) = chars a ++ chars b.
Proof. induction a as [ | c a IH ]; simpl; [ reflexivity | ]. now rewrite <- IH. Qed.






Lemma lstrip_split (l : list ascii) :
  exists sp, all_space sp /\ l = sp ++ lstrip_chars l.
Proof.
  induction l as [ | c l (sp & Hsp & IH) ]; simpl.
  - exists []. split; [ constructor | reflexivity ].
  - destruct (is_space c) eqn:Hc.
    + exists (c :: sp). split; [ now constructor | ]. simpl. now rewrite <- IH.
    + exists []. split; [ constructor | reflexivity ].
Qed.








End StringFacts.

(** ** The pipeline, for every behaviour of the external tools *)

Section PipelineFacts.
Context {E JSON : Type}.
Variable exec : list string -> World E -> completed * World E.
Variable json_loads : string -> option JSON.
Variable json_dumps : JSON -> string.
Variable ROOT : Path.

Lemma run_args_world (args : list string) w :
  (run exec (inr args) w).2 = (exec args w).2.
Proof.
  unfold run. destruct (exec args w) as [[rc out | ] w']; [ | reflexivity ].
  now destruct rc.
Qed.

Lemma run_args_normal (args : list string) w r w' :
  run exec (inr args) w = (Normal r, w') ->
  exists out, exec args w = (Completed 0 out, w') /\ r = PyStr.strip out.
Proof.
  unfold run. destruct (exec args w) as [[rc out | ] w1]; [ | discriminate ].
  destruct rc; [ | discriminate | discriminate ].
  intros [= <- <-]. now exists out.
Qed.

(** C4. [transpile(path)] runs the external transpiler on the path with
    the fixed options [--normalize-case --resolve cast --type bigquery]
    (the world after the call is the one the tool leaves), but it
    returns no schema: when the tool succeeds, the text [run] returned
    is asked for its attribute [stdout] and the call ends with
    [AttributeError]; when the tool fails, with the error of [run]. *)
Theorem transpile_never_returns (schema_path : Path) (w : World E) :
  transpile_args schema_path
    = ["jsonschema-transpiler"; PyPath.to_str schema_path;
       "--normalize-case"; "--resolve"; "cast"; "--type"; "bigquery"]
  /\ (transpile exec json_loads schema_path w).2
       = (exec (transpile_args schema_path) w).2
  /\ (exists e, (transpile exec json_loads schema_path w).1 = Raise e)
  /\ (forall out w',
        exec (transpile_args schema_path) w = (Completed 0 out, w') ->
        transpile exec json_loads schema_path w
          = (Raise (AttributeError "str" "stdout"), w')).
Proof.
  split; [ reflexivity | ].
  unfold transpile, bind.
  pose proof (run_args_world (transpile_args schema_path) w) as Hw.
  destruct (run exec (inr (transpile_args schema_path)) w) as [[r | e] w1] eqn:Hrun;
    simpl in *.
  - apply run_args_normal in Hrun as (out & Hex & ->).
    repeat split; [ assumption | now eexists | ].
    intros out' w' Hex'. rewrite Hex in Hex'. now inversion Hex'.
  - repeat split; [ assumption | now eexists | ].
    intros out w' Hex. unfold run in Hrun. rewrite Hex in Hrun. discriminate.
Qed.

Lemma load_schemas_str_raises (s : string) :
  always_raises (load_schemas (E := E) json_loads (VStr s)).
Proof. unfold load_schemas. apply always_raises_bind_l, always_raises_raise. Qed.

(** C5. No call of [checkout_transpile_schemas] returns the pair of
    schema sets, and none ends normally: the value bound to
    [head_rev_path] is the text printed by [git checkout], so that
    [load_schemas(head_rev_path)] ends with [AttributeError] whenever
    the call gets that far; besides, the function has no [return]. *)
Theorem checkout_transpile_schemas_never_returns
    (head_ref base_ref : string) (outdir : Path) (w : World E) :
  (exists e w',
     checkout_transpile_schemas exec json_loads json_dumps ROOT
       head_ref base_ref outdir w = (Raise e, w'))
  /\ (forall (head_rev_path : string) (w1 : World E),
        load_schemas json_loads (VStr head_rev_path) w1
          = (Raise (AttributeError "str" "glob"), w1)).
Proof.
  split; [ | reflexivity ].
  revert w. change (always_raises
    (checkout_transpile_schemas exec json_loads json_dumps ROOT head_ref base_ref outdir)).
  unfold checkout_transpile_schemas.
  do 8 (apply always_raises_bind_r; intros ?).
  apply always_raises_bind_r; intros rev_paths.
  apply always_raises_bind_l, load_schemas_str_raises.
Qed.

(** *** The loop of [transpile_schemas] *)

Lemma last_parts_app {A : Type} (pre l : list A) :
  PyPath.last_parts (List.length l) (pre ++ l) = l.
Proof.
  unfold PyPath.last_parts. rewrite List.length_app.
  replace (List.length pre + List.length l - List.length l)%nat
    with (List.length pre) by lia.
  induction pre; simpl; auto.
Qed.

Lemma last_parts_3 {A : Type} (pre : list A) (a b c : A) :
  PyPath.last_parts 3 (pre ++ [a; b; c]) = [a; b; c].
Proof. exact (last_parts_app pre [a; b; c]). Qed.

(** With the output directory in place, [transpile_schemas] is its
    loop. *)
Lemma transpile_schemas_loop (output_path : Path) (paths : list Path) (w : World E) :
  PyFs.is_dir output_path w = true ->
  transpile_schemas exec json_loads json_dumps output_path paths w
    = for_each paths (transpile_schemas_body exec json_loads json_dumps output_path) w.
Proof.
  intros Hdir. unfold transpile_schemas, bind at 1, get_world.
  rewrite Hdir. reflexivity.
Qed.

Lemma print_world (line : string) (w : World E) :
  print line w = (Normal tt, mkWorld (fs w) (ext w) (console w ++ [line]) (tmp_next w)).
Proof. reflexivity. Qed.

(** The names the loop computes for the schema sources
    [ns/doc/1.2.3.schema.json] and [ns/doc/1.2.4.schema.json] (under any
    directory): the versions read from the file names are the integers
    3 and 4, the third segment from the end; the turn of the loop for
    each source is [write_schema] on the file [ns.doc.3.bq],
    respectively [ns.doc.4.bq], of the output directory, and the two
    files are different. *)
Lemma names_by_version (dir output_path : Path) :
  let src3 := dir ++ ["ns"; "doc"; "1.2.3.schema.json"] in
  let src4 := dir ++ ["ns"; "doc"; "1.2.4.schema.json"] in
  let out3 := output_path ++ ["ns.doc.3.bq"] in
  let out4 := output_path ++ ["ns.doc.4.bq"] in
  (forall w : World E,
      version_of "1.2.3.schema.json" w = (Normal 3%Z, w)
      /\ version_of "1.2.4.schema.json" w = (Normal 4%Z, w))
  /\ (forall w,
        transpile_schemas_body exec json_loads json_dumps output_path src3 w
          = write_schema exec json_loads json_dumps out3 src3 w)
  /\ (forall w,
        transpile_schemas_body exec json_loads json_dumps output_path src4 w
          = write_schema exec json_loads json_dumps out4 src4 w)
  /\ (forall w,
        PyFs.is_dir output_path w = true ->
        transpile_schemas exec json_loads json_dumps output_path [src3; src4] w
          = (write_schema exec json_loads json_dumps out3 src3 ;;;
             write_schema exec json_loads json_dumps out4 src4 ;;;
             ret tt) w)
  /\ PyPath.name out3 = "ns.doc.3.bq"
  /\ PyPath.name out4 = "ns.doc.4.bq"
  /\ out3 <> out4.
Proof.
  intros src3 src4 out3 out4.
  assert (H3 : forall w,
             transpile_schemas_body exec json_loads json_dumps output_path src3 w
             = write_schema exec json_loads json_dumps out3 src3 w).
  { intros w. unfold transpile_schemas_body, src3.
    rewrite last_parts_3. reflexivity. }
  assert (H4 : forall w,
             transpile_schemas_body exec json_loads json_dumps output_path src4 w
             = write_schema exec json_loads json_dumps out4 src4 w).
  { intros w. unfold transpile_schemas_body, src4.
    rewrite last_parts_3. reflexivity. }
  split; [ intros w; split; reflexivity | ].
  split; [ exact H3 | ]. split; [ exact H4 | ].
  split.
  { intros w Hdir. rewrite transpile_schemas_loop by assumption.
    simpl for_each.
    rewrite (bind_ext_l _ _ _ H3). apply bind_ext_r. intros [] w1.
    now rewrite (bind_ext_l _ _ _ H4). }
  unfold out3, out4, PyPath.name. rewrite !List.last_last.
  split; [ reflexivity | ]. split; [ reflexivity | ].
  intros Heq. apply List.app_inv_head in Heq. discriminate.
Qed.

(** C10. In a turn of the loop the version is parsed before the
    namespace is looked at: for a source whose namespace is [schemas]
    and whose third segment from the end is not an integer, the turn
    ends with [ValueError] in an unchanged world, and so does the call
    of [transpile_schemas] that meets this source first; the source is
    not skipped. *)
Theorem reserved_namespace_version_parsed_first
    (output_path path : Path) (rest : list Path)
    (doctype filename seg : string) (w : World E) :
  PyPath.last_parts 3 path = ["schemas"; doctype; filename] ->
  PyPath.nth_from_end 3 (PyStr.split "." filename) = Some seg ->
  PyStr.int seg = None ->
  transpile_schemas_body exec json_loads json_dumps output_path path w
    = (Raise (ValueError ("invalid literal for int() with base 10: " +:+ seg)), w)
  /\ (PyFs.is_dir output_path w = true ->
      transpile_schemas exec json_loads json_dumps output_path (path :: rest) w
        = (Raise (ValueError ("invalid literal for int() with base 10: " +:+ seg)), w)).
Proof.
  intros Hparts Hseg Hint.
  assert (Hbody :
    transpile_schemas_body exec json_loads json_dumps output_path path w
    = (Raise (ValueError ("invalid literal for int() with base 10: " +:+ seg)), w)).
  { unfold transpile_schemas_body. rewrite Hparts.
    unfold bind, version_of. rewrite Hseg, Hint. reflexivity. }
  split; [ exact Hbody | ].
  intros Hdir. rewrite transpile_schemas_loop by assumption.
  simpl for_each. now rewrite (bind_raise _ _ _ _ _ Hbody).
Qed.

(** A turn of the loop for a source with namespace [schemas] touches
    neither the file system nor the state of the tools. *)
Lemma reserved_turn_world
    (output_path path : Path) (doctype filename : string) (w : World E) :
  PyPath.last_parts 3 path = ["schemas"; doctype; filename] ->
  fs (transpile_schemas_body exec json_loads json_dumps output_path path w).2 = fs w
  /\ ext (transpile_schemas_body exec json_loads json_dumps output_path path w).2 = ext w.
Proof.
  intros Hparts. unfold transpile_schemas_body. rewrite Hparts.
  unfold bind, version_of.
  destruct (PyPath.nth_from_end 3 (PyStr.split "." filename)) as [seg | ];
    [ | now split ].
  destruct (PyStr.int seg) as [version | ]; now split.
Qed.

(** C8, amended. A turn of the loop for a source whose namespace is
    [schemas] writes no file and runs no external tool: the file system
    and the state of the tools are left as they were.  When the third
    segment from the end of its file name parses as an integer the
    source is skipped: the turn only prints the notice and ends
    normally, so that the loop goes on with the next source. *)
Theorem reserved_namespace_writes_nothing
    (output_path path : Path) (doctype filename : string) (w : World E) :
  PyPath.last_parts 3 path = ["schemas"; doctype; filename] ->
  fs (transpile_schemas_body exec json_loads json_dumps output_path path w).2 = fs w
  /\ ext (transpile_schemas_body exec json_loads json_dumps output_path path w).2 = ext w
  /\ (forall seg version,
        PyPath.nth_from_end 3 (PyStr.split "." filename) = Some seg ->
        PyStr.int seg = Some version ->
        transpile_schemas_body exec json_loads json_dumps output_path path w
          = (Normal tt,
             mkWorld (fs w) (ext w)
               (console w ++ ["skipping " +:+ PyPath.to_str path
                                +:+ " due to wrong directory level"])
               (tmp_next w))).
Proof.
  intros Hparts.
  destruct (reserved_turn_world output_path path doctype filename w Hparts) as [Hfs Hext].
  split; [ exact Hfs | ]. split; [ exact Hext | ].
  intros seg version Hseg Hint.
  unfold transpile_schemas_body. rewrite Hparts.
  unfold bind, version_of. rewrite Hseg, Hint. reflexivity.
Qed.

Lemma reserved_sources_write_nothing (output_path : Path) (paths : list Path) :
  Forall reserved paths ->
  forall w,
    fs (for_each paths (transpile_schemas_body exec json_loads json_dumps output_path) w).2
      = fs w.
Proof.
  induction 1 as [ | path paths (doctype & filename & Hparts) _ IH ]; intros w.
  - reflexivity.
  - simpl. unfold bind at 1.
    pose proof (reserved_turn_world output_path path doctype filename w Hparts)
      as (Hfs & _).
    destruct (transpile_schemas_body _ _ _ output_path path w) as [[[] | e] w1];
      simpl in *.
    + now rewrite IH.
    + assumption.
Qed.

(** *** Loading a directory of transpiled schemas *)

Lemma is_prefix_app (p l : Path) : PyPath.is_prefix p (p ++ l) = true.
Proof. induction p as [ | x p IH ]; simpl; [ reflexivity | ]. now rewrite String.eqb_refl. Qed.

Lemma child_of_entry (dir : Path) (name : string) :
  PyPath.child_of dir (dir ++ [name]) = true.
Proof.
  unfold PyPath.child_of. rewrite is_prefix_app, List.length_app. simpl.
  apply Nat.eqb_eq. lia.
Qed.

Lemma filter_none {A : Type} (f : A -> bool) (l : list A) :
  (forall y, y ∈ l -> f y = false) -> List.filter f l = [].
Proof.
  induction l as [ | a l IH ]; intros H; simpl; [ reflexivity | ].
  rewrite (H a) by apply list_elem_of_here.
  apply IH. intros y Hy. apply H. now apply list_elem_of_further.
Qed.

Lemma filter_unique {A : Type} (f : A -> bool) (l : list A) (x : A) :
  NoDup l -> x ∈ l -> f x = true ->
  (forall y, y ∈ l -> f y = true -> y = x) ->
  List.filter f l = [x].
Proof.
  induction 1 as [ | a l Hnotin Hnodup IH ]; intros Hin Hx Huniq.
  - now apply not_elem_of_nil in Hin.
  - simpl. apply elem_of_cons in Hin as [-> | Hin].
    + rewrite Hx. f_equal. apply filter_none. intros y Hy.
      destruct (f y) eqn:Hfy; [ | reflexivity ].
      assert (y = a) by (apply Huniq; [ now apply list_elem_of_further | assumption ]).
      now subst.
    + destruct (f a) eqn:Hfa.
      * assert (a = x) by (apply Huniq; [ apply list_elem_of_here | assumption ]).
        now subst.
      * apply IH; [ assumption .. | ].
        intros y Hy. apply Huniq. now apply list_elem_of_further.
Qed.

Lemma elem_of_entries (f : gmap Path node) (q : Path) :
  q ∈ PyFs.entries f <-> is_Some (f !! q).
Proof.
  unfold PyFs.entries. rewrite list_elem_of_fmap. split.
  - intros ([k v] & -> & Hin). apply elem_of_map_to_list in Hin. now exists v.
  - intros [v Hv]. exists (q, v). split; [ reflexivity | ].
    now apply elem_of_map_to_list.
Qed.

(** C7. [load_schemas(dir)] on a directory with no entry matching
    [*.bq] ends with the assertion error of the emptiness check, in an
    unchanged world; on a directory whose only such entry is the file
    [a.b.1.bq], holding a JSON document, it returns the mapping with
    the single key [a.b.1], bound to the parsed document, after
    printing the count. *)
Theorem load_schemas_empty_and_single (dir : Path) (w : World E) :
  (map_Forall
     (fun q _ => PyPath.child_of dir q && PyStr.ends_with ".bq" (PyPath.name q) = false)
     (fs w) ->
   load_schemas json_loads (VPath dir) w = (Raise (AssertionError ""), w))
  /\ (forall text j,
        PyFs.is_dir dir w = true ->
        fs w !! (dir ++ ["a.b.1.bq"]) = Some (File text) ->
        map_Forall
          (fun q _ =>
             PyPath.child_of dir q && PyStr.ends_with ".bq" (PyPath.name q) = true ->
             q = dir ++ ["a.b.1.bq"])
          (fs w) ->
        json_loads text = Some j ->
        load_schemas json_loads (VPath dir) w
          = (Normal {[ "a.b.1" := j ]},
             mkWorld (fs w) (ext w) (console w ++ ["loaded 1 schemas"]) (tmp_next w))).
Proof.
  split.
  - intros Hnone. unfold load_schemas, attr_glob, bind, get_world, ret.
    assert (Hglob : PyFs.glob_suffix ".bq" dir w = []).
    { unfold PyFs.glob_suffix. destruct (PyFs.is_dir dir w); [ | reflexivity ].
      apply filter_none. intros q Hq. apply elem_of_entries in Hq as [v Hv].
      exact (Hnone q v Hv). }
    now rewrite Hglob.
  - intros text j Hdir Hfile Honly Hjson.
    assert (Hglob : PyFs.glob_suffix ".bq" dir w = [dir ++ ["a.b.1.bq"]]).
    { unfold PyFs.glob_suffix. rewrite Hdir.
      apply filter_unique.
      - apply NoDup_fst_map_to_list.
      - apply elem_of_entries. exists (File text). exact Hfile.
      - rewrite child_of_entry. unfold PyPath.name. now rewrite List.last_last.
      - intros q Hq Hmatch. apply elem_of_entries in Hq as [v Hv].
        exact (Honly q v Hv Hmatch). }
    unfold load_schemas, attr_glob, bind, get_world, ret. rewrite Hglob.
    simpl. unfold bind, PyFs.read_text. rewrite Hfile.
    unfold loads. rewrite Hjson. unfold ret, PyPath.name.
    rewrite List.last_last, insert_empty, map_size_singleton. reflexivity.
Qed.

(** *** The revision helper *)

(** X10. Once the preparation is through, the outcome of
    [_checkout_transpile_schemas] is the one of [git checkout
    original_ref], run in the world the [try] block left: what the
    block raised is lost. *)
Lemma revision_helper_outcome
    (ref : string) (output : Path) (w w1 : World E)
    (original_ref : string) (rev_path : Path) :
  prepare_revision exec ref output w = (Normal (original_ref, rev_path), w1) ->
  _checkout_transpile_schemas exec json_loads json_dumps ROOT ref output w
    = run exec (inl ("git checkout " +:+ original_ref))
        (checkout_and_generate exec json_loads json_dumps ROOT ref rev_path w1).2.
Proof.
  intros Hprep. unfold _checkout_transpile_schemas.
  rewrite (bind_normal _ _ _ _ _ Hprep). simpl.
  rewrite try_finally_return_outcome. now rewrite try_except_reraise_id.
Qed.

(** With an output directory, a non-empty answer of [git diff] stops
    the helper at its second assertion, in the world [git diff] left. *)
Lemma dirty_tree_assertion
    (ref : string) (output : Path) (w w1 : World E) (changes : string) :
  PyFs.is_dir output w = true ->
  run exec (inl "git diff") w = (Normal changes, w1) ->
  changes <> "" ->
  _checkout_transpile_schemas exec json_loads json_dumps ROOT ref output w
    = (Raise (AssertionError "current git state must be clean, please stash changes"), w1).
Proof.
  intros Hdir Hdiff Hdirty.
  unfold _checkout_transpile_schemas, prepare_revision.
  unfold bind at 1. unfold bind at 1. unfold get_world.
  rewrite Hdir. unfold assert at 1, ret, bind at 1.
  rewrite (bind_normal _ _ _ _ _ Hdiff).
  unfold bind at 1, assert.
  destruct changes; [ congruence | reflexivity ].
Qed.

End PipelineFacts.

(** ** The pipeline on the modelled repository *)

Section OnGit.

(** Witness of C10: the misplaced schema without version. *)
Lemma reserved_namespace_version_parsed_first_witness :
  PyPath.last_parts 3 Sample.misplaced_draft = ["schemas"; "pioneer"; "draft.schema.json"]
  /\ PyPath.nth_from_end 3 (PyStr.split "." "draft.schema.json") = Some "draft"
  /\ PyStr.int "draft" = None
  /\ Sample.turn ["/"; "tmp"] Sample.misplaced_draft Sample.clean_on_master
       = (Raise (ValueError "invalid literal for int() with base 10: draft"),
          Sample.clean_on_master).
Proof.
  split; [ reflexivity | ]. split; [ reflexivity | ]. split; [ reflexivity | ].
  apply (reserved_namespace_version_parsed_first
           Git.exec Git.json_loads Git.json_dumps
           ["/"; "tmp"] Sample.misplaced_draft [] "pioneer" "draft.schema.json" "draft"
           Sample.clean_on_master); reflexivity.
Defined.

(** Counterexample to C8 as stated: a source with namespace [schemas]
    is not skipped when its name carries no version; the call ends with
    [ValueError] and the source after it is never reached. *)
Lemma reserved_source_not_skipped :
  PyPath.last_parts 3 Sample.misplaced_draft = ["schemas"; "pioneer"; "draft.schema.json"]
  /\ PyFs.is_dir ["/"; "tmp"] Sample.clean_on_master = true
  /\ Sample.transpile_all ["/"; "tmp"] [Sample.misplaced_draft; Sample.schema_file]
       Sample.clean_on_master
     = (Raise (ValueError "invalid literal for int() with base 10: draft"),
        Sample.clean_on_master).
Proof. split; [ reflexivity | ]. split; reflexivity. Qed.

(** Witness of C8, amended: the misplaced schema with a version. *)
Lemma reserved_namespace_writes_nothing_witness :
  PyPath.last_parts 3 Sample.misplaced_versioned
    = ["schemas"; "pioneer"; "study.1.schema.json"]
  /\ fs (Sample.turn ["/"; "tmp"] Sample.misplaced_versioned Sample.clean_on_master).2
     = fs Sample.clean_on_master
  /\ ext (Sample.turn ["/"; "tmp"] Sample.misplaced_versioned Sample.clean_on_master).2
     = ext Sample.clean_on_master.
Proof.
  split; [ reflexivity | ].
  pose proof (reserved_namespace_writes_nothing
                Git.exec Git.json_loads Git.json_dumps
                ["/"; "tmp"] Sample.misplaced_versioned "pioneer" "study.1.schema.json"
                Sample.clean_on_master eq_refl) as (Hfs & Hext & _).
  split; [ exact Hfs | exact Hext ].
Defined.

(** Witness of C7: a directory without schemas and a directory with
    the one schema [a.b.1.bq]. *)
Lemma load_schemas_empty_and_single_witness :
  load_schemas Git.json_loads (VPath ["/"]) Sample.one_schema
    = (Raise (AssertionError ""), Sample.one_schema)
  /\ load_schemas Git.json_loads (VPath Sample.loaded_dir) Sample.one_schema
     = (Normal {[ "a.b.1" := "[]" ]},
        mkWorld (fs Sample.one_schema) tt ["loaded 1 schemas"] 0).
Proof.
  split.
  - apply (proj1 (load_schemas_empty_and_single Git.json_loads ["/"] Sample.one_schema)).
    apply map_Forall_to_list. vm_compute. repeat constructor.
  - apply (proj2 (load_schemas_empty_and_single
                    Git.json_loads Sample.loaded_dir Sample.one_schema) "[]" "[]").
    + reflexivity.
    + reflexivity.
    + apply map_Forall_to_list. vm_compute.
      repeat (constructor; [ first [ reflexivity | discriminate ] | ]). constructor.
    + reflexivity.
Defined.

(** *** Switching revisions *)

(** Counterexample to C3 as stated: [checkout_transpile_schemas] on a
    repository with a modified tracked file does not end with the
    assertion error of the clean-tree check; it stashes the
    modification (one stash entry where there was none), transpiles at
    both revisions and ends with the attribute error of
    [load_schemas]. *)
Lemma diff_stashes_dirty_tree :
  Git.changes (ext Sample.dirty_on_feature) = "diff --git a/README.md b/README.md"
  /\ Git.stash (ext Sample.dirty_on_feature) = []
  /\ (Sample.diff "HEAD" "master" Sample.dirty_on_feature).1
     = Raise (AttributeError "str" "glob")
  /\ Git.stash (ext (Sample.diff "HEAD" "master" Sample.dirty_on_feature).2)
     = ["diff --git a/README.md b/README.md"]
  /\ console (Sample.diff "HEAD" "master" Sample.dirty_on_feature).2
     = ["resolved HEAD to feature";
        "transpiling schemas for ref: feature, rev: 2222222bbbbbbb";
        "writing /tmp/tmp0/2222222/telemetry.main.4.bq";
        "transpiling schemas for ref: master, rev: 1111111aaaaaaa";
        "writing /tmp/tmp0/1111111/telemetry.main.4.bq"].
Proof. repeat split; vm_compute; reflexivity. Qed.

(** C1, at two failing inputs.  On [master] with a clean tree, a run
    with head [feature] and base [master] ends on [feature]: the
    cleanup checks out [head_ref], not the reference the run started
    from.  On a detached checkout of the revision of [feature], the run
    of [main] (head [HEAD], base [master]) ends on [master]: the
    reference recorded is the name [HEAD], and checking it out moves
    nothing.  Both runs end with the attribute error of
    [load_schemas]. *)
Theorem diff_ends_on_another_reference :
  (Git.HEAD (ext Sample.clean_on_master) = Git.OnBranch "master"
   /\ (Sample.diff "feature" "master" Sample.clean_on_master).1
      = Raise (AttributeError "str" "glob")
   /\ Git.HEAD (ext (Sample.diff "feature" "master" Sample.clean_on_master).2)
      = Git.OnBranch "feature")
  /\ (Git.HEAD (ext Sample.detached_at_feature) = Git.Detached "2222222bbbbbbb"
      /\ (Sample.diff "HEAD" "master" Sample.detached_at_feature).1
         = Raise (AttributeError "str" "glob")
      /\ Git.HEAD (ext (Sample.diff "HEAD" "master" Sample.detached_at_feature).2)
         = Git.OnBranch "master").
Proof. repeat split; vm_compute; reflexivity. Qed.

(** The stash made by a run is not re-applied when the stash list was
    empty before: an empty list and a list of one entry both count as
    one line, so [should_apply_stash] is false.  After the run the
    modification is in the stash and no longer in the tree. *)
Lemma diff_leaves_changes_stashed :
  git_stash_size Git.exec Sample.dirty_on_feature = (Normal 1%nat, Sample.dirty_on_feature)
  /\ Git.changes (ext (Sample.diff "HEAD" "master" Sample.dirty_on_feature).2) = ""
  /\ Git.stash (ext (Sample.diff "HEAD" "master" Sample.dirty_on_feature).2)
     = ["diff --git a/README.md b/README.md"].
Proof. repeat split; vm_compute; reflexivity. Qed.

(** C2, at the failing input: on [master], for the revision [feature],
    the [try] block of [_checkout_transpile_schemas] ends with the
    attribute error of [transpile]; the [return] of the [finally]
    clause discards it, and the call returns the (empty) output of
    [git checkout master] as if nothing had failed. *)
Theorem revision_helper_swallows_exception :
  let prepared :=
    prepare_revision Git.exec "feature" ["/"; "tmp"] Sample.clean_on_master in
  prepared.1 = Normal ("master", ["/"; "tmp"; "2222222"])
  /\ (checkout_and_generate Git.exec Git.json_loads Git.json_dumps Sample.ROOT
        "feature" ["/"; "tmp"; "2222222"] prepared.2).1
     = Raise (AttributeError "str" "stdout")
  /\ (Sample.revision "feature" ["/"; "tmp"] Sample.clean_on_master).1 = Normal ""
  /\ Git.HEAD (ext (Sample.revision "feature" ["/"; "tmp"] Sample.clean_on_master).2)
     = Git.OnBranch "master".
Proof. repeat split; vm_compute; reflexivity. Qed.

(** *** Resolving references *)

Import PyStr.












End OnGit.

(** * More of the script *)

Section LoopMore.
Context {E JSON : Type}.
Variable exec : list string -> World E -> completed * World E.
Variable json_loads : string -> option JSON.
Variable json_dumps : JSON -> string.

Lemma transpile_always_raises (schema_path : Path) :
  always_raises (transpile exec json_loads schema_path).
Proof.
  unfold transpile. apply always_raises_bind_r. intros res.
  apply always_raises_bind_l, always_raises_raise.
Qed.

Lemma write_schema_always_raises (out path : Path) :
  always_raises (write_schema exec json_loads json_dumps out path).
Proof.
  unfold write_schema. do 2 (apply always_raises_bind_r; intros ?).
  apply always_raises_bind_l, transpile_always_raises.
Qed.

Lemma turn_normal_reserved (output_path path : Path) (w w1 : World E) :
  transpile_schemas_body exec json_loads json_dumps output_path path w = (Normal tt, w1) ->
  reserved path.
Proof.
  unfold transpile_schemas_body, reserved.
  destruct (PyPath.last_parts 3 path) as [ | ns [ | dt [ | fn [ | ] ] ] ] eqn:Hparts;
    try discriminate.
  unfold bind. destruct (version_of fn w) as [[v | e] w2]; [ | discriminate ].
  destruct (String.eqb ns "schemas") eqn:Hns.
  - apply String.eqb_eq in Hns. subst ns. intros _. now exists dt, fn.
  - intros H. destruct (write_schema_always_raises
                          (output_path </> bq_name ns dt v) path w2) as (e & w3 & Hr).
    rewrite Hr in H. discriminate.
Qed.

Lemma loop_normal_reserved (output_path : Path) (paths : list Path) :
  forall w w1 : World E,
    for_each paths (transpile_schemas_body exec json_loads json_dumps output_path) w
      = (Normal tt, w1) ->
    Forall reserved paths /\ fs w1 = fs w /\ ext w1 = ext w.
Proof.
  induction paths as [ | path paths IH ]; intros w w1; simpl.
  - intros [= <-]. now repeat split.
  - unfold bind at 1.
    destruct (transpile_schemas_body exec json_loads json_dumps output_path path w)
      as [[[] | e] w2] eqn:Hturn; [ | discriminate ].
    intros Hrest. destruct (IH _ _ Hrest) as (Hall & Hfs & Hext).
    pose proof (turn_normal_reserved _ _ _ _ Hturn) as Hres.
    destruct Hres as (dt & fn & Hparts).
    pose proof (reserved_turn_world exec json_loads json_dumps output_path path dt fn w Hparts)
      as [Hfs2 Hext2].
    rewrite Hturn in Hfs2, Hext2. simpl in *.
    split; [ constructor; [ now exists dt, fn | assumption ] | ].
    split; congruence.
Qed.

(** X6. [transpile_schemas] returns normally only when it had nothing
    to write: the output path is a directory, every source has the
    namespace [schemas], and neither the files nor the state of the
    tools have changed.  A source of any other namespace ends the call
    with an exception, since [transpile] never returns. *)
Theorem transpile_schemas_succeeds_only_idle
    (output_path : Path) (paths : list Path) (w w1 : World E) :
  transpile_schemas exec json_loads json_dumps output_path paths w = (Normal tt, w1) ->
  PyFs.is_dir output_path w = true
  /\ Forall reserved paths
  /\ fs w1 = fs w /\ ext w1 = ext w.
Proof.
  intros H. destruct (PyFs.is_dir output_path w) eqn:Hdir.
  - rewrite transpile_schemas_loop in H by assumption.
    split; [ reflexivity | ]. now apply (loop_normal_reserved output_path paths w w1).
  - unfold transpile_schemas, bind, get_world in H. rewrite Hdir in H. discriminate.
Qed.

(** X4. [transpile_schemas] on an output path that is not a directory
    ends with the assertion error, whatever the sources, in an unchanged
    world; on a directory and no source it returns in an unchanged
    world. *)
Theorem transpile_schemas_precondition (output_path : Path) (paths : list Path) (w : World E) :
  (PyFs.is_dir output_path w = false ->
   transpile_schemas exec json_loads json_dumps output_path paths w
     = (Raise (AssertionError ""), w))
  /\ (PyFs.is_dir output_path w = true ->
      transpile_schemas exec json_loads json_dumps output_path [] w = (Normal tt, w)).
Proof.
  split; intros Hdir.
  - unfold transpile_schemas, bind, get_world. now rewrite Hdir.
  - now rewrite transpile_schemas_loop.
Qed.

(** X5. A turn of the loop for a path of fewer than three parts ends
    with the [ValueError] of the unpacking, and for a file name of fewer
    than three dot-separated segments with [IndexError], whatever the
    namespace; the world is unchanged. *)
Theorem turn_on_short_path_or_name (output_path path : Path) (w : World E) :
  ((List.length path < 3)%nat ->
   transpile_schemas_body exec json_loads json_dumps output_path path w
     = (Raise (ValueError "not enough values to unpack (expected 3)"), w))
  /\ (forall namespace doctype filename,
        PyPath.last_parts 3 path = [namespace; doctype; filename] ->
        (List.length (PyStr.split "." filename) < 3)%nat ->
        transpile_schemas_body exec json_loads json_dumps output_path path w
          = (Raise (IndexError "list index out of range"), w)).
Proof.
  split.
  - intros Hlen. unfold transpile_schemas_body.
    destruct path as [ | a [ | b [ | c path ] ] ]; simpl in Hlen; try lia; reflexivity.
  - intros ns dt fn Hparts Hlen. unfold transpile_schemas_body. rewrite Hparts.
    unfold bind, version_of, PyPath.nth_from_end.
    apply Nat.ltb_lt in Hlen. now rewrite Hlen.
Qed.

Lemma append_assoc (a b c : string) : (a +:+ b) +:+ c = a +:+ (b +:+ c).
Proof.
  induction a as [ | x a IH ]; [ reflexivity | ].
  change (String x ((a +:+ b) +:+ c) = String x (a +:+ (b +:+ c))). now rewrite IH.
Qed.

Lemma parent_is_dir_child (output_path : Path) (name : string) (w : World E) :
  PyFs.is_dir output_path w = true ->
  PyFs.parent_is_dir (fs w) (output_path ++ [name]) = true.
Proof.
  intros Hdir. unfold PyFs.parent_is_dir, PyPath.parent.
  rewrite List.removelast_last. now destruct output_path.
Qed.

(** [write_schema] on a file that can be opened: the file is created,
    or emptied, the notice is printed, the transpiler is run, and the
    call ends with an exception in the world the transpiler left;
    nothing is written to the file. *)
Lemma write_schema_stops (out path : Path) (w : World E) :
  PyFs.is_dir_in (fs w) out = false ->
  PyFs.parent_is_dir (fs w) out = true ->
  (exists e,
     write_schema exec json_loads json_dumps out path w
       = (Raise e, (exec (transpile_args path) (opened out w)).2))
  /\ (forall o w',
        exec (transpile_args path) (opened out w) = (Completed 0 o, w') ->
        write_schema exec json_loads json_dumps out path w
          = (Raise (AttributeError "str" "stdout"), w')).
Proof.
  intros Hnodir Hparent.
  assert (Heq : write_schema exec json_loads json_dumps out path w
                = match exec (transpile_args path) (opened out w) with
                  | (Completed 0 _, w') => (Raise (AttributeError "str" "stdout"), w')
                  | (Completed rc _, w') =>
                      (Raise (CalledProcessError rc (transpile_args path)), w')
                  | (NotStarted, w') =>
                      (Raise (FileNotFoundError "jsonschema-transpiler"), w')
                  end).
  { unfold write_schema, transpile, bind, PyFs.open_w, print, run.
    rewrite Hnodir, Hparent. unfold set_fs. cbn [fs ext console tmp_next].
    fold (opened out w).
    destruct (exec (transpile_args path) (opened out w)) as [[[ | rc | rc ] o | ] w1];
      reflexivity. }
  rewrite Heq.
  destruct (exec (transpile_args path) (opened out w)) as [[[ | rc | rc ] o | ] w1];
    cbn [snd]; (split; [ now eexists | intros o' w' H; now inversion H ]).
Qed.

(** C6. A call of [transpile_schemas] on the schema sources
    [ns/doc/1.2.3.schema.json] and [ns/doc/1.2.4.schema.json] (under
    any directory) does not produce the files [ns.doc.3.bq] and
    [ns.doc.4.bq]: it creates [ns.doc.3.bq] empty in the output
    directory, runs the transpiler on the first source and ends with
    an exception in the world the transpiler left ([AttributeError]
    when the transpiler succeeds), the file still empty; the second
    source is never reached, and the file [ns.doc.4.bq] is as it was
    before the call. *)
Theorem transpile_schemas_stops_at_first_version
    (dir output_path : Path) (w : World E) :
  let src3 := dir ++ ["ns"; "doc"; "1.2.3.schema.json"] in
  let src4 := dir ++ ["ns"; "doc"; "1.2.4.schema.json"] in
  let out3 := output_path ++ ["ns.doc.3.bq"] in
  let out4 := output_path ++ ["ns.doc.4.bq"] in
  PyFs.is_dir output_path w = true ->
  PyFs.is_dir out3 w = false ->
  (exists e,
     transpile_schemas exec json_loads json_dumps output_path [src3; src4] w
       = (Raise e, (exec (transpile_args src3) (opened out3 w)).2))
  /\ (forall o w',
        exec (transpile_args src3) (opened out3 w) = (Completed 0 o, w') ->
        transpile_schemas exec json_loads json_dumps output_path [src3; src4] w
          = (Raise (AttributeError "str" "stdout"), w'))
  /\ fs (opened out3 w) !! out3 = Some (File "")
  /\ fs (opened out3 w) !! out4 = fs w !! out4.
Proof.
  intros src3 src4 out3 out4 Hdir Hnodir.
  assert (Hturn : transpile_schemas_body exec json_loads json_dumps output_path src3 w
                  = write_schema exec json_loads json_dumps out3 src3 w).
  { unfold transpile_schemas_body, src3. rewrite last_parts_3. reflexivity. }
  destruct (write_schema_stops out3 src3 w Hnodir
              (parent_is_dir_child output_path "ns.doc.3.bq" w Hdir)) as [[e He] Hok].
  split; [ | split; [ | split ] ].
  - exists e. rewrite transpile_schemas_loop by assumption. simpl for_each.
    rewrite <- Hturn in He. now rewrite (bind_raise _ _ _ _ _ He).
  - intros o w' Hex. rewrite transpile_schemas_loop by assumption. simpl for_each.
    specialize (Hok o w' Hex). rewrite <- Hturn in Hok.
    now rewrite (bind_raise _ _ _ _ _ Hok).
  - unfold opened. cbn [fs]. apply lookup_insert_eq.
  - unfold opened. cbn [fs]. apply lookup_insert_ne.
    unfold out3, out4. intros Heq. apply List.app_inv_head in Heq. discriminate.
Qed.

(** X7. The name of the output file does not tell namespace and
    document type apart when they hold dots: the turns of the loop for
    the sources [a.b/c/f] and [a/b.c/f] open the same file of the
    output directory, each creating it or emptying what the other left
    there, before the transpiler is run on the source and the turn ends
    with an exception. *)
Theorem dotted_names_share_output
    (output_path pre1 pre2 : Path) (a b c filename seg : string) (version : Z)
    (w : World E) :
  PyPath.nth_from_end 3 (PyStr.split "." filename) = Some seg ->
  PyStr.int seg = Some version ->
  a <> "schemas" ->
  a +:+ "." +:+ b <> "schemas" ->
  let src1 := pre1 ++ [a +:+ "." +:+ b; c; filename] in
  let src2 := pre2 ++ [a; b +:+ "." +:+ c; filename] in
  let out := output_path </> bq_name a (b +:+ "." +:+ c) version in
  PyFs.is_dir_in (fs w) out = false ->
  PyFs.parent_is_dir (fs w) out = true ->
  (exists e,
     transpile_schemas_body exec json_loads json_dumps output_path src1 w
       = (Raise e, (exec (transpile_args src1) (opened out w)).2))
  /\ (exists e,
        transpile_schemas_body exec json_loads json_dumps output_path src2 w
          = (Raise e, (exec (transpile_args src2) (opened out w)).2))
  /\ fs (opened out w) !! out = Some (File "").
Proof.
  intros Hseg Hint Ha Hab src1 src2 out Hnodir Hparent.
  assert (Hname : bq_name (a +:+ "." +:+ b) c version = bq_name a (b +:+ "." +:+ c) version).
  { unfold bq_name. now rewrite !append_assoc. }
  apply String.eqb_neq in Ha, Hab.
  assert (H1 : transpile_schemas_body exec json_loads json_dumps output_path src1 w
               = write_schema exec json_loads json_dumps out src1 w).
  { unfold transpile_schemas_body, src1. rewrite last_parts_3.
    unfold bind at 1, version_of. rewrite Hseg, Hint. unfold ret.
    rewrite Hab, Hname. reflexivity. }
  assert (H2 : transpile_schemas_body exec json_loads json_dumps output_path src2 w
               = write_schema exec json_loads json_dumps out src2 w).
  { unfold transpile_schemas_body, src2. rewrite last_parts_3.
    unfold bind at 1, version_of. rewrite Hseg, Hint. unfold ret.
    rewrite Ha. reflexivity. }
  rewrite H1, H2.
  split; [ exact (proj1 (write_schema_stops out src1 w Hnodir Hparent)) | ].
  split; [ exact (proj1 (write_schema_stops out src2 w Hnodir Hparent)) | ].
  unfold opened. cbn [fs]. apply lookup_insert_eq.
Qed.

End LoopMore.

Section RunMore.
Import PyStr.

Lemma lstrip_nil (l : list ascii) : lstrip_chars l = [] <-> all_space l.
Proof.
  induction l as [ | c l IH ]; simpl.
  - split; [ constructor | reflexivity ].
  - destruct (is_space c) eqn:Hc.
    + rewrite IH. split; [ now constructor | now inversion 1 ].
    + split; [ discriminate | ]. inversion 1; congruence.
Qed.

Lemma all_space_rev (l : list ascii) : all_space (rev l) <-> all_space l.
Proof.
  split; intros H.
  - rewrite <- (rev_involutive l). now apply List.Forall_rev.
  - now apply List.Forall_rev.
Qed.

Lemma rstrip_nil (l : list ascii) : rstrip_chars l = [] <-> all_space l.
Proof.
  unfold rstrip_chars. rewrite <- all_space_rev, <- lstrip_nil.
  split; intros H.
  - apply (f_equal (@rev ascii)) in H. now rewrite rev_involutive in H.
  - now rewrite H.
Qed.

Lemma all_space_lstrip (l : list ascii) : all_space (lstrip_chars l) <-> all_space l.
Proof.
  destruct (lstrip_split l) as (sp & Hsp & Hl). split; intros H.
  - rewrite Hl. apply Forall_app. now split.
  - rewrite Hl in H. apply Forall_app in H. tauto.
Qed.

Lemma strip_empty (s : string) : strip s = "" <-> all_space (chars s).
Proof.
  unfold strip. rewrite <- all_space_lstrip, <- rstrip_nil. split; intros H.
  - apply (f_equal chars) in H. now rewrite chars_of_chars in H.
  - now rewrite H.
Qed.

Lemma lstrip_idem (l : list ascii) : lstrip_chars (lstrip_chars l) = lstrip_chars l.
Proof.
  induction l as [ | c l IH ]; simpl; [ reflexivity | ].
  destruct (is_space c) eqn:Hc; [ exact IH | ]. simpl. now rewrite Hc.
Qed.

Lemma lstrip_length (l : list ascii) : (List.length (lstrip_chars l) <= List.length l)%nat.
Proof.
  induction l as [ | c l IH ]; simpl; [ lia | ].
  destruct (is_space c); simpl; lia.
Qed.

Lemma lstrip_fixed_head (c : ascii) (l : list ascii) :
  lstrip_chars (c :: l) = c :: l -> is_space c = false.
Proof.
  simpl. destruct (is_space c); [ | reflexivity ].
  intros H. pose proof (lstrip_length l) as Hlen. rewrite H in Hlen. simpl in Hlen. lia.
Qed.

Lemma rstrip_split (l : list ascii) :
  exists sp, all_space sp /\ l = rstrip_chars l ++ sp.
Proof.
  unfold rstrip_chars. destruct (lstrip_split (rev l)) as (sp & Hsp & Hl).
  exists (rev sp). split; [ now apply all_space_rev | ].
  apply (f_equal (@rev ascii)) in Hl. now rewrite rev_involutive, rev_app_distr in Hl.
Qed.

Lemma lstrip_rstrip (l : list ascii) :
  lstrip_chars l = l -> lstrip_chars (rstrip_chars l) = rstrip_chars l.
Proof.
  intros Hfix. destruct (rstrip_split l) as (sp & Hsp & Hl).
  destruct (rstrip_chars l) as [ | c t ] eqn:Hr; [ reflexivity | ].
  rewrite Hl in Hfix. simpl in Hfix.
  pose proof (lstrip_fixed_head c (t ++ sp) Hfix) as Hc. simpl. now rewrite Hc.
Qed.

Lemma rstrip_idem (l : list ascii) : rstrip_chars (rstrip_chars l) = rstrip_chars l.
Proof. unfold rstrip_chars. now rewrite rev_involutive, lstrip_idem. Qed.

Lemma strip_idem (s : string) : strip (strip s) = strip s.
Proof.
  unfold strip. rewrite chars_of_chars. f_equal.
  rewrite lstrip_rstrip by apply lstrip_idem. apply rstrip_idem.
Qed.

Lemma split_chars_length (sep : ascii) (l : list ascii) :
  List.length (split_chars sep l)
    = S (List.length (List.filter (fun c => Ascii.eqb c sep) l)).
Proof.
  induction l as [ | c l IH ]; simpl; [ reflexivity | ].
  destruct (Ascii.eqb c sep); simpl.
  - now rewrite IH.
  - destruct (split_chars sep l) as [ | p ps ]; simpl in *; [ discriminate | exact IH ].
Qed.

End RunMore.

(** ** The clean-tree check *)

Section DirtyTree.
Import PyStr.

Lemma space_is_ascii (c : ascii) : is_space c = true -> (byte c <? 128)%N = true.
Proof. destruct c as [[] [] [] [] [] [] [] []]; first [ discriminate | reflexivity ]. Qed.

Lemma code_points_space (l : list ascii) :
  all_space l ->
  forall fuel, (List.length l <= fuel)%nat ->
    code_points fuel l = List.map (fun c => Some (byte c)) l.
Proof.
  induction 1 as [ | c l Hc Hl IH ]; intros fuel Hlen.
  - now destruct fuel.
  - destruct fuel as [ | fuel ]; simpl in Hlen; [ lia | ].
    simpl. rewrite (space_is_ascii c Hc). simpl. f_equal. apply IH. lia.
Qed.

Lemma isspace_byte (c : ascii) : is_space c = true -> isspace (byte c) = true.
Proof.
  intros Hc. unfold isspace. rewrite (space_is_ascii c Hc).
  unfold byte. now rewrite ascii_N_embedding.
Qed.

(** A text of ASCII white space is blank. *)
Lemma all_space_blank (s : string) : all_space (chars s) -> is_blank s = true.
Proof.
  intros H. unfold is_blank. rewrite (code_points_space _ H) by lia.
  induction H as [ | c l Hc Hl IH ]; [ reflexivity | ].
  simpl. now rewrite (isspace_byte c Hc).
Qed.

(** A text that is not blank is not stripped to nothing. *)
Lemma not_blank_strip (s : string) : is_blank s = false -> strip s <> "".
Proof.
  intros Hb Hs. apply strip_empty, all_space_blank in Hs. congruence.
Qed.

(** C3, amended. [_checkout_transpile_schemas(ref, output)], called
    with an output directory on a repository with modifications of
    tracked files ([git diff] prints text that is not all white
    space), ends with the assertion error of the clean-tree check
    before any checkout: the world is left as it was, so the current
    reference is unchanged and no stash entry is created. *)
Theorem dirty_tree_rejected_before_checkout
    (ROOT : Path) (ref : string) (output : Path) (w : World Git.Repo) :
  PyFs.is_dir output w = true ->
  PyStr.decodes (Git.changes (ext w)) = true ->
  PyStr.is_blank (Git.changes (ext w)) = false ->
  _checkout_transpile_schemas Git.exec Git.json_loads Git.json_dumps ROOT ref output w
    = (Raise (AssertionError "current git state must be clean, please stash changes"), w).
Proof.
  intros Hdir _ Hdirty. apply not_blank_strip in Hdirty.
  now apply (dirty_tree_assertion Git.exec Git.json_loads Git.json_dumps ROOT
               ref output w w (strip (Git.changes (ext w)))).
Qed.

Lemma dirty_tree_rejected_before_checkout_witness :
  PyFs.is_dir ["/"; "tmp"] Sample.dirty_on_feature = true
  /\ PyStr.decodes (Git.changes (ext Sample.dirty_on_feature)) = true
  /\ PyStr.is_blank (Git.changes (ext Sample.dirty_on_feature)) = false
  /\ Sample.revision "master" ["/"; "tmp"] Sample.dirty_on_feature
     = (Raise (AssertionError "current git state must be clean, please stash changes"),
        Sample.dirty_on_feature).
Proof.
  split; [ reflexivity | ]. split; [ reflexivity | ]. split; [ reflexivity | ].
  apply (dirty_tree_rejected_before_checkout
           Sample.ROOT "master" ["/"; "tmp"] Sample.dirty_on_feature);
    reflexivity.
Defined.

End DirtyTree.

Section ToolsMore.
Context {E JSON : Type}.
Variable exec : list string -> World E -> completed * World E.
Variable json_loads : string -> option JSON.
Variable json_dumps : JSON -> string.
Variable ROOT : Path.

Lemma run_normal (command : string + list string) (w w' : World E) (r : string) :
  run exec command w = (Normal r, w') ->
  exists out, exec (command_args command) w = (Completed 0 out, w') /\ r = PyStr.strip out.
Proof.
  unfold run. fold (command_args command).
  destruct (exec (command_args command) w) as [[rc out | ] w1]; [ | discriminate ].
  destruct rc; [ | discriminate | discriminate ].
  intros [= <- <-]. now exists out.
Qed.

Lemma of_chars_app (a b : list ascii) :
  PyStr.of_chars (a ++ b) = PyStr.of_chars a +:+ PyStr.of_chars b.
Proof.
  rewrite <- (of_chars_chars (PyStr.of_chars a +:+ PyStr.of_chars b)).
  now rewrite chars_app, !chars_of_chars.
Qed.

Lemma rev_rstrip (l : list ascii) :
  rev (PyStr.rstrip_chars l) = PyStr.lstrip_chars (rev l).
Proof. unfold PyStr.rstrip_chars. apply rev_involutive. Qed.

(** X1. When a command exits with code 0 and prints ASCII text, [run]
    returns the part of that text between its leading and its trailing
    white space: the output is white space, the value, white space, and
    the value neither starts nor ends with a white space character. *)
Theorem run_returns_stripped_output
    (command : string + list string) (w w' : World E) (out : string) :
  exec (command_args command) w = (Completed 0 out, w') ->
  PyStr.is_ascii out = true ->
  exists pre r post,
    run exec command w = (Normal r, w')
    /\ out = pre +:+ r +:+ post
    /\ PyStr.all_space (PyStr.chars pre)
    /\ PyStr.all_space (PyStr.chars post)
    /\ (forall c t, PyStr.chars r = c :: t -> PyStr.is_space c = false)
    /\ (forall c t, rev (PyStr.chars r) = c :: t -> PyStr.is_space c = false).
Proof.
  intros Hex _.
  destruct (lstrip_split (PyStr.chars out)) as (sp1 & Hsp1 & Hl1).
  destruct (rstrip_split (PyStr.lstrip_chars (PyStr.chars out))) as (sp2 & Hsp2 & Hl2).
  exists (PyStr.of_chars sp1), (PyStr.strip out), (PyStr.of_chars sp2).
  split.
  { unfold run. fold (command_args command). now rewrite Hex. }
  split.
  { unfold PyStr.strip. rewrite <- !of_chars_app, <- Hl2, <- Hl1.
    symmetry. apply of_chars_chars. }
  rewrite !chars_of_chars. split; [ assumption | ]. split; [ assumption | ].
  unfold PyStr.strip. rewrite chars_of_chars. split.
  - intros c t Hr. apply (lstrip_fixed_head c t). rewrite <- Hr.
    apply lstrip_rstrip, lstrip_idem.
  - intros c t Hr. apply (lstrip_fixed_head c t). rewrite <- Hr.
    rewrite rev_rstrip. apply lstrip_idem.
Qed.

(** X2. When [git_stash_size] returns, the size is one more than the
    number of line feeds in the stripped output of [git stash list]: it
    is never 0, and 1 for an empty listing. *)
Theorem git_stash_size_counts_newlines (w w' : World E) (n : nat) :
  git_stash_size exec w = (Normal n, w') ->
  (1 <= n)%nat
  /\ exists r,
       run exec (inl "git stash list") w = (Normal r, w')
       /\ n = S (List.length (List.filter (fun c => Ascii.eqb c LF) (PyStr.chars r))).
Proof.
  unfold git_stash_size, bind.
  destruct (run exec (inl "git stash list") w) as [[r | e] w1]; [ | discriminate ].
  intros [= <- <-]. unfold PyStr.split. rewrite length_map, split_chars_length.
  split; [ lia | ]. now exists r.
Qed.

(** X9. [_checkout_transpile_schemas] stops before any checkout when
    its output is not a directory (assertion error, world unchanged, no
    command run) and when the directory named by the first seven
    characters of the revision exists already ([FileExistsError], after
    the three read-only queries). *)
Theorem revision_helper_stops_before_checkout
    (ref : string) (output : Path) (w : World E) :
  (PyFs.is_dir output w = false ->
   _checkout_transpile_schemas exec json_loads json_dumps ROOT ref output w
     = (Raise (AssertionError ("output must be a directory: " +:+ PyPath.to_str output)), w))
  /\ (forall (w1 w2 w3 : World E) (original_ref rev : string),
        PyFs.is_dir output w = true ->
        run exec (inl "git diff") w = (Normal "", w1) ->
        run exec (inl "git rev-parse --abbrev-ref HEAD") w1 = (Normal original_ref, w2) ->
        run exec (inl ("git rev-parse " +:+ ref)) w2 = (Normal rev, w3) ->
        PyFs.exists_in (fs w3) (output </> PyStr.take 7 rev) = true ->
        _checkout_transpile_schemas exec json_loads json_dumps ROOT ref output w
          = (Raise (FileExistsError (PyPath.to_str (output </> PyStr.take 7 rev))),
             mkWorld (fs w3) (ext w3)
               (console w3
                  ++ ["transpiling schemas for ref: " +:+ ref +:+ ", rev: " +:+ rev])
               (tmp_next w3))).
Proof.
  split.
  - intros Hdir. unfold _checkout_transpile_schemas, prepare_revision.
    unfold bind at 1. unfold bind at 1. unfold get_world. now rewrite Hdir.
  - intros w1 w2 w3 original_ref rev Hdir Hdiff Horig Hrev Hex.
    unfold _checkout_transpile_schemas, prepare_revision.
    unfold bind at 1. unfold bind at 1. unfold get_world.
    rewrite Hdir. unfold assert at 1, ret, bind at 1.
    rewrite (bind_normal _ _ _ _ _ Hdiff). unfold bind at 1, assert at 1. simpl.
    unfold ret. rewrite (bind_normal _ _ _ _ _ Horig).
    rewrite (bind_normal _ _ _ _ _ Hrev).
    unfold bind, print, PyFs.mkdir. simpl. now rewrite Hex.
Qed.

Lemma diff_always_raises (head_ref base_ref : string) (outdir : Path) :
  always_raises
    (checkout_transpile_schemas exec json_loads json_dumps ROOT head_ref base_ref outdir).
Proof.
  unfold checkout_transpile_schemas.
  do 9 (apply always_raises_bind_r; intros ?).
  apply always_raises_bind_l, load_schemas_str_raises.
Qed.

(** X13. [main] never ends normally; when the probe
    [jsonschema-transpiler --version] fails, [main] ends with that very
    error, in the world the probe left: no git command is run. *)
Theorem main_probe_and_outcome (w : World E) :
  (exists e w', main exec json_loads json_dumps ROOT w = (Raise e, w'))
  /\ (forall e w',
        run exec (inl "jsonschema-transpiler --version") w = (Raise e, w') ->
        main exec json_loads json_dumps ROOT w = (Raise e, w')).
Proof.
  split.
  - revert w. change (always_raises (main exec json_loads json_dumps ROOT)).
    unfold main. apply always_raises_bind_r. intros _. apply diff_always_raises.
  - intros e w' Hrun. unfold main. now rewrite (bind_raise _ _ _ _ _ Hrun).
Qed.

End ToolsMore.

Section StashMore.
Import PyStr.

Lemma newlines_app (a b : list ascii) : newlines (a ++ b) = (newlines a + newlines b)%nat.
Proof. unfold newlines. now rewrite List.filter_app, List.length_app. Qed.

Lemma pretty_N_char_visible (x : N) :
  Ascii.eqb (pretty_N_char x) LF = false /\ is_space (pretty_N_char x) = false.
Proof.
  unfold pretty_N_char.
  destruct x as [ | p ]; [ now split | ].
  do 4 (try destruct p as [ p | p | ]); now split.
Qed.

Lemma pretty_N_go_visible (x : N) (s : string) :
  newlines (chars s) = 0%nat -> newlines (chars (pretty_N_go x s)) = 0%nat.
Proof.
  revert s. induction (N.lt_wf_0 x) as [x _ IH]; intros s Hs.
  destruct (decide (x = 0)%N) as [-> | Hx].
  - now rewrite pretty_N_go_0.
  - rewrite pretty_N_go_step by lia. apply IH.
    + apply N.div_lt; lia.
    + unfold newlines in *. simpl.
      destruct (pretty_N_char_visible (x `mod` 10)) as [-> _]. exact Hs.
Qed.

Lemma pretty_nat_visible (n : nat) : newlines (chars (pretty n)) = 0%nat.
Proof.
  unfold pretty, pretty_nat, pretty, pretty_N.
  destruct (decide (N.of_nat n = 0)%N); [ reflexivity | ].
  now apply pretty_N_go_visible.
Qed.

End StashMore.

Section StashGit.
Import PyStr.

Lemma stash_lines_shape (entries : list string) :
  forall (entry : string) (i : nat),
  exists body,
    chars (Git.stash_lines i (entry :: entries)) = "s"%char :: body ++ ["P"%char; LF]
    /\ newlines body = List.length entries.
Proof.
  induction entries as [ | next entries IH ]; intros entry i.
  - exists (chars "tash@{" ++ chars (pretty i) ++ chars "}: WI"). split.
    + simpl Git.stash_lines. rewrite !chars_app. simpl. rewrite <- !app_assoc. reflexivity.
    + rewrite !newlines_app, pretty_nat_visible. reflexivity.
  - destruct (IH next (S i)) as (body & Hbody & Hcount).
    exists (chars "tash@{" ++ chars (pretty i) ++ chars "}: WIP" ++ [LF] ++ "s"%char :: body).
    split.
    + change (Git.stash_lines i (entry :: next :: entries))
        with ("stash@{" +:+ pretty i +:+ "}: WIP" +:+ String LF ""
                +:+ Git.stash_lines (S i) (next :: entries)).
      rewrite !chars_app, Hbody. simpl. rewrite <- !app_assoc. reflexivity.
    + rewrite !newlines_app, pretty_nat_visible.
      change (newlines ("s"%char :: body)) with (newlines body). rewrite Hcount.
      reflexivity.
Qed.

Lemma strip_stash_lines (body : list ascii) :
  rstrip_chars (lstrip_chars ("s"%char :: body ++ ["P"%char; LF]))
    = "s"%char :: body ++ ["P"%char].
Proof.
  assert (H1 : lstrip_chars ("s"%char :: body ++ ["P"%char; LF])
               = "s"%char :: body ++ ["P"%char; LF]) by reflexivity.
  rewrite H1. unfold rstrip_chars.
  assert (H2 : rev ("s"%char :: body ++ ["P"%char; LF])
               = LF :: "P"%char :: rev ("s"%char :: body)).
  { change ("s"%char :: body ++ ["P"%char; LF])
      with (("s"%char :: body) ++ ["P"%char; LF]).
    rewrite rev_app_distr. reflexivity. }
  rewrite H2.
  assert (H3 : lstrip_chars (LF :: "P"%char :: rev ("s"%char :: body))
               = "P"%char :: rev ("s"%char :: body)) by reflexivity.
  rewrite H3.
  change (rev ("P"%char :: rev ("s"%char :: body)))
    with (rev (rev ("s"%char :: body)) ++ ["P"%char]).
  now rewrite rev_involutive.
Qed.

Lemma stash_list_size (w : World Git.Repo) :
  git_stash_size Git.exec w
    = (Normal (Nat.max 1 (List.length (Git.stash (ext w)))), w).
Proof.
  unfold git_stash_size, bind.
  change (run Git.exec (inl "git stash list") w)
    with (Normal (strip (Git.stash_lines 0 (Git.stash (ext w)))), w).
  unfold ret. f_equal. f_equal.
  destruct (Git.stash (ext w)) as [ | entry entries ]; [ reflexivity | ].
  destruct (stash_lines_shape entries entry 0) as (body & Hbody & Hcount).
  unfold split, strip. rewrite length_map, split_chars_length, chars_of_chars.
  rewrite Hbody, strip_stash_lines.
  change ("s"%char :: body ++ ["P"%char]) with (("s"%char :: body) ++ ["P"%char]).
  fold (newlines (("s"%char :: body) ++ ["P"%char])).
  rewrite newlines_app. change (newlines ("s"%char :: body)) with (newlines body).
  rewrite Hcount. change (newlines ["P"%char]) with 0%nat.
  change (List.length (entry :: entries)) with (S (List.length entries)). lia.
Qed.

End StashGit.

Section StashDetect.

Lemma run_git_stash (w : World Git.Repo) :
  (run Git.exec (inl "git stash") w).2
    = if String.eqb (Git.changes (ext w)) "" then w
      else set_ext (fun _ => Git.mkRepo (Git.HEAD (ext w)) (Git.refs (ext w)) ""
                               (Git.changes (ext w) :: Git.stash (ext w))) w.
Proof.
  change (run Git.exec (inl "git stash") w)
    with (match Git.exec ["git"; "stash"] w with
          | (Completed 0 out, w') => (Normal (PyStr.strip out), w')
          | (Completed rc _, w') => (Raise (CalledProcessError rc ["git"; "stash"]), w')
          | (NotStarted, w') => (Raise (FileNotFoundError "git"), w')
          end).
  change (Git.exec ["git"; "stash"] w)
    with (if String.eqb (Git.changes (ext w)) ""
          then (Completed 0 "No local changes to save", w)
          else (Completed 0 "Saved working directory and index state WIP",
                set_ext (fun _ => Git.mkRepo (Git.HEAD (ext w)) (Git.refs (ext w)) ""
                                    (Git.changes (ext w) :: Git.stash (ext w))) w)).
  now destruct (String.eqb (Git.changes (ext w)) "").
Qed.

(** X3. On the modelled repository [git_stash_size] is the number of
    stash entries, but 1 when there is none.  [git stash] adds an entry
    exactly when tracked files are modified, yet the sizes taken before
    and after it differ only if, besides, the stash list was not empty
    before. *)
Theorem stash_detected_only_on_nonempty_list (w : World Git.Repo) :
  let stashed := (run Git.exec (inl "git stash") w).2 in
  let before := Nat.max 1 (List.length (Git.stash (ext w))) in
  let after := Nat.max 1 (List.length (Git.stash (ext stashed))) in
  git_stash_size Git.exec w = (Normal before, w)
  /\ git_stash_size Git.exec stashed = (Normal after, stashed)
  /\ (Git.stash (ext stashed) <> Git.stash (ext w) <-> Git.changes (ext w) <> "")
  /\ (before <> after <-> Git.changes (ext w) <> "" /\ Git.stash (ext w) <> []).
Proof.
  intros stashed before after.
  split; [ apply stash_list_size | ]. split; [ apply stash_list_size | ].
  unfold before, after, stashed. rewrite run_git_stash.
  destruct (String.eqb (Git.changes (ext w)) "") eqn:Hc.
  - apply String.eqb_eq in Hc. split; split; try tauto; intros H; tauto.
  - apply String.eqb_neq in Hc. simpl. split.
    + split; [ tauto | ]. intros _ H. apply (f_equal (@List.length string)) in H.
      simpl in H. lia.
    + destruct (Git.stash (ext w)) as [ | e es ]; simpl; split.
      * intros H. lia.
      * intros [_ H]. congruence.
      * intros _. split; [ assumption | discriminate ].
      * intros _. lia.
Qed.

End StashDetect.

Section LoadMore.
Context {E JSON : Type}.
Variable json_loads : string -> option JSON.

Lemma load_each_spec (paths : list Path) :
  forall (acc schemas : gmap string JSON) (w w' : World E),
    load_each json_loads paths acc w = (Normal schemas, w') ->
    NoDup (stem <$> paths) ->
    (forall p, p ∈ paths -> acc !! stem p = None) ->
    w' = w
    /\ size schemas = (size acc + List.length paths)%nat
    /\ (forall k, (forall p, p ∈ paths -> stem p <> k) -> schemas !! k = acc !! k)
    /\ (forall p, p ∈ paths ->
          exists text, fs w !! p = Some (File text) /\ schemas !! stem p = json_loads text
                       /\ is_Some (json_loads text)).
Proof.
  induction paths as [ | path paths IH ]; intros acc schemas w w'; simpl.
  - intros [= <- <-] _ _. repeat split.
    + lia.
    + intros p Hp. now apply not_elem_of_nil in Hp.
  - unfold bind at 1, PyFs.read_text.
    destruct (fs w !! path) as [[ | text] | ] eqn:Hfile; try discriminate.
    unfold bind at 1, loads.
    destruct (json_loads text) as [j | ] eqn:Hj; [ | discriminate ].
    unfold ret at 1. fold (stem path).
    intros Hrest Hnodup Hfresh.
    apply NoDup_cons in Hnodup as [Hnotin Hnodup].
    assert (Hne : forall p, p ∈ paths -> stem p <> stem path).
    { intros p Hp Heq. apply Hnotin. rewrite <- Heq. now apply list_elem_of_fmap_2. }
    destruct (IH _ _ _ _ Hrest Hnodup) as (-> & Hsize & Hother & Hin).
    { intros p Hp. rewrite lookup_insert_ne by (apply not_eq_sym; now apply Hne).
      apply Hfresh. now apply list_elem_of_further. }
    split; [ reflexivity | ]. split.
    { rewrite Hsize, map_size_insert_None by (apply Hfresh; apply list_elem_of_here). lia. }
    split.
    { intros k Hk. rewrite Hother.
      - apply lookup_insert_ne. apply Hk, list_elem_of_here.
      - intros p Hp. apply Hk. now apply list_elem_of_further. }
    intros p Hp. apply elem_of_cons in Hp as [-> | Hp].
    + exists text. split; [ assumption | ]. rewrite Hj. split; [ | now eexists ].
      rewrite Hother by (intros p Hp; now apply Hne). apply lookup_insert_eq.
    + now apply Hin.
Qed.

Lemma is_prefix_split (p q : Path) :
  PyPath.is_prefix p q = true -> exists l, q = p ++ l.
Proof.
  revert q. induction p as [ | x p IH ]; intros q; simpl.
  - intros _. now exists q.
  - destruct q as [ | y q ]; [ discriminate | ].
    intros H. apply andb_prop in H as [Hxy Hp]. apply String.eqb_eq in Hxy. subst y.
    destruct (IH q Hp) as (l & ->). now exists l.
Qed.

Lemma child_of_name (dir q : Path) :
  PyPath.child_of dir q = true -> q = dir ++ [PyPath.name q].
Proof.
  unfold PyPath.child_of. intros H. apply andb_prop in H as [Hp Hlen].
  destruct (is_prefix_split _ _ Hp) as (l & ->).
  apply Nat.eqb_eq in Hlen. rewrite List.length_app in Hlen.
  destruct l as [ | x [ | y l ] ]; simpl in Hlen; try lia.
  unfold PyPath.name. now rewrite List.last_last.
Qed.

Lemma prefix_chars (a b : string) :
  String.prefix a b = true -> exists c, PyStr.chars b = PyStr.chars a ++ c.
Proof.
  revert b. induction a as [ | x a IH ]; intros b.
  - intros _. now exists (PyStr.chars b).
  - destruct b as [ | y b ]; simpl; [ discriminate | ].
    destruct (Ascii.ascii_dec x y) as [-> | ]; [ | discriminate ].
    intros H. destruct (IH b H) as (c & Hc). exists c. simpl. now rewrite Hc.
Qed.

Lemma ends_with_bq (n : string) :
  PyStr.ends_with ".bq" n = true -> n = PyStr.drop_last 3 n +:+ ".bq".
Proof.
  unfold PyStr.ends_with. intros H. apply prefix_chars in H as (c & Hc).
  rewrite !chars_of_chars in Hc.
  apply (f_equal (@rev ascii)) in Hc. rewrite rev_involutive, rev_app_distr in Hc.
  simpl in Hc. unfold PyStr.drop_last. rewrite Hc.
  rewrite List.length_app. simpl List.length.
  replace (List.length (rev c) + 3 - 3)%nat with (List.length (rev c)) by lia.
  rewrite List.firstn_app, Nat.sub_diag, List.firstn_all. simpl. rewrite app_nil_r.
  rewrite <- (of_chars_chars n) at 1. now rewrite Hc, of_chars_app.
Qed.

End LoadMore.

Section LoadMore2.
Context {E JSON : Type}.
Variable json_loads : string -> option JSON.

Lemma glob_elem (suffix : string) (dir q : Path) (w : World E) :
  q ∈ PyFs.glob_suffix suffix dir w ->
  is_Some (fs w !! q)
  /\ PyPath.child_of dir q = true
  /\ PyStr.ends_with suffix (PyPath.name q) = true.
Proof.
  unfold PyFs.glob_suffix. destruct (PyFs.is_dir dir w).
  - intros H. apply list_elem_of_In, List.filter_In in H as [Hin Hf].
    apply andb_prop in Hf as [Hc He]. apply list_elem_of_In, elem_of_entries in Hin.
    now repeat split.
  - intros H. now apply not_elem_of_nil in H.
Qed.

Lemma filter_NoDup {A : Type} (f : A -> bool) (l : list A) :
  NoDup l -> NoDup (List.filter f l).
Proof.
  induction 1 as [ | x l Hx Hl IH ]; simpl; [ constructor | ].
  destruct (f x); [ | exact IH ].
  constructor; [ | exact IH ].
  intros Hin. apply Hx. apply list_elem_of_In, List.filter_In in Hin as [Hin _].
  now apply list_elem_of_In.
Qed.

Lemma glob_NoDup (suffix : string) (dir : Path) (w : World E) :
  NoDup (PyFs.glob_suffix suffix dir w).
Proof.
  unfold PyFs.glob_suffix. destruct (PyFs.is_dir dir w); [ | constructor ].
  apply filter_NoDup. apply NoDup_fst_map_to_list.
Qed.

Lemma stem_inj_glob (dir p q : Path) (w : World E) :
  p ∈ PyFs.glob_suffix ".bq" dir w -> q ∈ PyFs.glob_suffix ".bq" dir w ->
  stem p = stem q -> p = q.
Proof.
  intros Hp Hq Heq.
  apply glob_elem in Hp as (_ & Hcp & Hep). apply glob_elem in Hq as (_ & Hcq & Heq').
  apply child_of_name in Hcp, Hcq. apply ends_with_bq in Hep, Heq'.
  unfold stem in Heq. rewrite Hcp, Hcq, Hep, Heq'. now rewrite Heq.
Qed.

(** X8. When [load_schemas(dir)] returns, it has changed neither files
    nor tools and printed the count; the directory has at least one
    entry matching [*.bq]; every such entry is a regular file holding a
    JSON document; the mapping has exactly one key per entry, the entry
    name without its last three characters, bound to the document of
    that file, and no other key. *)
Theorem load_schemas_result
    (dir : Path) (w w' : World E) (schemas : gmap string JSON) :
  load_schemas json_loads (VPath dir) w = (Normal schemas, w') ->
  let paths := PyFs.glob_suffix ".bq" dir w in
  fs w' = fs w /\ ext w' = ext w
  /\ console w' = console w ++ ["loaded " +:+ pretty (List.length paths) +:+ " schemas"]
  /\ (0 < List.length paths)%nat
  /\ size schemas = List.length paths
  /\ (forall p, p ∈ paths ->
        exists text, fs w !! p = Some (File text)
                     /\ schemas !! stem p = json_loads text
                     /\ is_Some (json_loads text))
  /\ (forall k, is_Some (schemas !! k) -> exists p, p ∈ paths /\ k = stem p).
Proof.
  intros H paths. unfold load_schemas, attr_glob in H.
  unfold bind at 1 in H. unfold bind at 1, get_world, ret at 1 in H.
  fold paths in H. unfold bind at 1, assert in H.
  destruct (0 <? List.length paths)%nat eqn:Hlen; [ | discriminate ].
  unfold ret at 1 in H. unfold bind at 1 in H.
  destruct (load_each json_loads paths ∅ w) as [[loaded | e] w1] eqn:Hload;
    [ | discriminate ].
  unfold bind, print, ret in H. injection H as <- <-. simpl.
  destruct (load_each_spec json_loads paths ∅ loaded w w1 Hload)
    as (-> & Hsize & Hother & Hin).
  { apply NoDup_fmap_2_strong; [ | apply glob_NoDup ].
    intros p q Hp Hq. now apply (stem_inj_glob dir p q w). }
  { intros p _. apply lookup_empty. }
  rewrite map_size_empty in Hsize. simpl in Hsize.
  split; [ reflexivity | ]. split; [ reflexivity | ].
  split; [ now rewrite Hsize | ].
  split; [ now apply Nat.ltb_lt | ]. split; [ assumption | ].
  split; [ assumption | ].
  intros k [v Hk].
  destruct (decide (k ∈ stem <$> paths)) as [Hm | Hm].
  - apply list_elem_of_fmap in Hm as (p & -> & Hp). now exists p.
  - rewrite Hother, lookup_empty in Hk; [ discriminate | ].
    intros p Hp <-. apply Hm. now apply list_elem_of_fmap_2.
Qed.

End LoadMore2.

(** ** Returning to the branch a run started from *)


Section Preservation.
Context {A B : Type}.
Variable Q : Git.Repo -> Prop.






End Preservation.

Section SameRepo.











End SameRepo.


Section GitCommands.
Import PyStr.






End GitCommands.


Section Restoration.
Import PyStr.
Variable ROOT : Path.














End Restoration.


Section Restoration2.
Import PyStr.
Variable ROOT : Path.












End Restoration2.

(** ** Instances *)

Lemma run_returns_stripped_output_witness :
  Git.exec (command_args (inl "git rev-parse --abbrev-ref HEAD")) Sample.clean_on_master
    = (Completed 0 ("master" +:+ String LF ""), Sample.clean_on_master)
  /\ PyStr.is_ascii ("master" +:+ String LF "") = true
  /\ exists pre r post,
       run Git.exec (inl "git rev-parse --abbrev-ref HEAD") Sample.clean_on_master
         = (Normal r, Sample.clean_on_master)
       /\ "master" +:+ String LF "" = pre +:+ r +:+ post
       /\ PyStr.all_space (PyStr.chars pre)
       /\ PyStr.all_space (PyStr.chars post)
       /\ (forall c t, PyStr.chars r = c :: t -> PyStr.is_space c = false)
       /\ (forall c t, rev (PyStr.chars r) = c :: t -> PyStr.is_space c = false).
Proof.
  split; [ reflexivity | ]. split; [ reflexivity | ].
  apply (run_returns_stripped_output Git.exec (inl "git rev-parse --abbrev-ref HEAD")
           Sample.clean_on_master Sample.clean_on_master ("master" +:+ String LF ""));
    reflexivity.
Defined.

Lemma git_stash_size_counts_newlines_witness :
  git_stash_size Git.exec Sample.clean_on_master = (Normal 1%nat, Sample.clean_on_master)
  /\ (1 <= 1)%nat.
Proof.
  split; [ reflexivity | ].
  apply (git_stash_size_counts_newlines Git.exec
           Sample.clean_on_master Sample.clean_on_master 1). reflexivity.
Defined.

Lemma transpile_schemas_precondition_witness :
  PyFs.is_dir ["/"; "nowhere"] Sample.clean_on_master = false
  /\ Sample.transpile_all ["/"; "nowhere"] [Sample.schema_file] Sample.clean_on_master
     = (Raise (AssertionError ""), Sample.clean_on_master)
  /\ PyFs.is_dir ["/"; "tmp"] Sample.clean_on_master = true
  /\ Sample.transpile_all ["/"; "tmp"] [] Sample.clean_on_master
     = (Normal tt, Sample.clean_on_master).
Proof.
  split; [ reflexivity | ]. split.
  - apply (proj1 (transpile_schemas_precondition Git.exec Git.json_loads Git.json_dumps
                    ["/"; "nowhere"] [Sample.schema_file] Sample.clean_on_master)).
    reflexivity.
  - split; [ reflexivity | ].
    apply (proj2 (transpile_schemas_precondition Git.exec Git.json_loads Git.json_dumps
                    ["/"; "tmp"] [] Sample.clean_on_master)).
    reflexivity.
Defined.

Lemma turn_on_short_path_or_name_witness :
  Sample.turn ["/"; "tmp"] ["doc"; "doc.1.schema.json"] Sample.clean_on_master
    = (Raise (ValueError "not enough values to unpack (expected 3)"), Sample.clean_on_master)
  /\ Sample.turn ["/"; "tmp"] ["schemas"; "doc"; "schema.json"] Sample.clean_on_master
     = (Raise (IndexError "list index out of range"), Sample.clean_on_master).
Proof.
  split.
  - apply (proj1 (turn_on_short_path_or_name Git.exec Git.json_loads Git.json_dumps
                    ["/"; "tmp"] ["doc"; "doc.1.schema.json"] Sample.clean_on_master)).
    simpl. lia.
  - apply (proj2 (turn_on_short_path_or_name Git.exec Git.json_loads Git.json_dumps
                    ["/"; "tmp"] ["schemas"; "doc"; "schema.json"] Sample.clean_on_master)
             "schemas" "doc" "schema.json"); [ reflexivity | ].
    vm_compute. lia.
Defined.

Lemma transpile_schemas_succeeds_only_idle_witness :
  let after :=
    (Sample.transpile_all ["/"; "tmp"] [Sample.misplaced_versioned]
       Sample.clean_on_master).2 in
  Sample.transpile_all ["/"; "tmp"] [Sample.misplaced_versioned] Sample.clean_on_master
    = (Normal tt, after)
  /\ PyFs.is_dir ["/"; "tmp"] Sample.clean_on_master = true
  /\ Forall reserved [Sample.misplaced_versioned]
  /\ fs after = fs Sample.clean_on_master /\ ext after = ext Sample.clean_on_master.
Proof.
  intros after. split; [ reflexivity | ].
  apply (transpile_schemas_succeeds_only_idle Git.exec Git.json_loads Git.json_dumps
           ["/"; "tmp"] [Sample.misplaced_versioned] Sample.clean_on_master after).
  reflexivity.
Defined.

Lemma dotted_names_share_output_witness :
  let out := ["/"; "tmp"; "org.mozilla.ping.1.bq"] in
  PyStr.int "1" = Some 1%Z
  /\ PyFs.is_dir_in (fs Sample.clean_on_master) out = false
  /\ PyFs.parent_is_dir (fs Sample.clean_on_master) out = true
  /\ (exists e,
        Sample.turn ["/"; "tmp"] ["org.mozilla"; "ping"; "ping.1.schema.json"]
          Sample.clean_on_master
        = (Raise e,
           (Git.exec (transpile_args ["org.mozilla"; "ping"; "ping.1.schema.json"])
              (opened out Sample.clean_on_master)).2))
  /\ (exists e,
        Sample.turn ["/"; "tmp"] ["org"; "mozilla.ping"; "ping.1.schema.json"]
          Sample.clean_on_master
        = (Raise e,
           (Git.exec (transpile_args ["org"; "mozilla.ping"; "ping.1.schema.json"])
              (opened out Sample.clean_on_master)).2))
  /\ fs (opened out Sample.clean_on_master) !! out = Some (File "").
Proof.
  intros out.
  split; [ reflexivity | ]. split; [ reflexivity | ]. split; [ reflexivity | ].
  apply (dotted_names_share_output Git.exec Git.json_loads Git.json_dumps
           ["/"; "tmp"] [] [] "org" "mozilla" "ping" "ping.1.schema.json" "1" 1%Z
           Sample.clean_on_master);
    [ reflexivity | reflexivity | discriminate | discriminate
    | reflexivity | reflexivity ].
Defined.

Lemma transpile_schemas_stops_at_first_version_witness :
  let out3 := ["/"; "tmp"; "ns.doc.3.bq"] in
  let out4 := ["/"; "tmp"; "ns.doc.4.bq"] in
  let call := Sample.transpile_all ["/"; "tmp"] [Sample.version_3; Sample.version_4]
                Sample.two_versions in
  PyFs.is_dir ["/"; "tmp"] Sample.two_versions = true
  /\ PyFs.is_dir out3 Sample.two_versions = false
  /\ call = (Raise (AttributeError "str" "stdout"), opened out3 Sample.two_versions)
  /\ fs call.2 !! out3 = Some (File "")
  /\ fs call.2 !! out4 = None
  /\ console call.2 = ["writing /tmp/ns.doc.3.bq"].
Proof.
  intros out3 out4 call.
  split; [ reflexivity | ]. split; [ reflexivity | ].
  assert (Hcall : call = (Raise (AttributeError "str" "stdout"),
                          opened out3 Sample.two_versions)).
  { apply (proj1 (proj2 (transpile_schemas_stops_at_first_version
                           Git.exec Git.json_loads Git.json_dumps
                           ["/"; "repo"; "schemas"] ["/"; "tmp"] Sample.two_versions
                           eq_refl eq_refl)) "[]").
    vm_compute. reflexivity. }
  split; [ exact Hcall | ]. rewrite Hcall.
  split; [ vm_compute; reflexivity | ]. split; vm_compute; reflexivity.
Defined.

Lemma load_schemas_result_witness :
  let loaded := load_schemas Git.json_loads (VPath Sample.loaded_dir) Sample.two_schemas in
  let schemas : gmap string string := <[ "a.b.2" := "[1]" ]> (<[ "a.b.1" := "[]" ]> ∅) in
  loaded = (Normal schemas, loaded.2)
  /\ fs loaded.2 = fs Sample.two_schemas
  /\ size schemas = List.length (PyFs.glob_suffix ".bq" Sample.loaded_dir Sample.two_schemas)
  /\ (0 < List.length (PyFs.glob_suffix ".bq" Sample.loaded_dir Sample.two_schemas))%nat.
Proof.
  intros loaded schemas.
  assert (H : loaded = (Normal schemas, loaded.2)) by (vm_compute; reflexivity).
  split; [ exact H | ].
  destruct (load_schemas_result Git.json_loads Sample.loaded_dir Sample.two_schemas
              loaded.2 schemas H) as (Hfs & _ & _ & Hpos & Hsize & _).
  split; [ exact Hfs | ]. split; [ exact Hsize | exact Hpos ].
Defined.

Lemma revision_helper_stops_before_checkout_witness :
  Sample.revision "master" ["/"; "nowhere"] Sample.clean_on_master
    = (Raise (AssertionError "output must be a directory: /nowhere"), Sample.clean_on_master)
  /\ (Sample.revision "master" ["/"; "tmp"] Sample.revisited).1
     = Raise (FileExistsError "/tmp/1111111").
Proof.
  split.
  - apply (proj1 (revision_helper_stops_before_checkout Git.exec Git.json_loads
                    Git.json_dumps Sample.ROOT "master" ["/"; "nowhere"]
                    Sample.clean_on_master)). reflexivity.
  - unfold Sample.revision.
    rewrite (proj2 (revision_helper_stops_before_checkout Git.exec Git.json_loads
                      Git.json_dumps Sample.ROOT "master" ["/"; "tmp"] Sample.revisited)
               Sample.revisited Sample.revisited Sample.revisited
               "master" "1111111aaaaaaa"); reflexivity.
Defined.

Lemma revision_helper_outcome_witness :
  let prepared :=
    prepare_revision Git.exec "feature" ["/"; "tmp"] Sample.clean_on_master in
  prepared = (Normal ("master", ["/"; "tmp"; "2222222"]), prepared.2)
  /\ Sample.revision "feature" ["/"; "tmp"] Sample.clean_on_master
     = run Git.exec (inl "git checkout master")
         (checkout_and_generate Git.exec Git.json_loads Git.json_dumps Sample.ROOT
            "feature" ["/"; "tmp"; "2222222"] prepared.2).2.
Proof.
  intros prepared. split; [ vm_compute; reflexivity | ].
  apply (revision_helper_outcome Git.exec Git.json_loads Git.json_dumps Sample.ROOT
           "feature" ["/"; "tmp"] Sample.clean_on_master prepared.2
           "master" ["/"; "tmp"; "2222222"]).
  vm_compute. reflexivity.
Defined.



Lemma main_probe_and_outcome_witness :
  run Sample.nothing_installed (inl "jsonschema-transpiler --version") Sample.one_schema
    = (Raise (FileNotFoundError "jsonschema-transpiler"), Sample.one_schema)
  /\ main Sample.nothing_installed Git.json_loads Git.json_dumps Sample.ROOT Sample.one_schema
     = (Raise (FileNotFoundError "jsonschema-transpiler"), Sample.one_schema).
Proof.
  split; [ reflexivity | ].
  apply (proj2 (main_probe_and_outcome Sample.nothing_installed Git.json_loads
                  Git.json_dumps Sample.ROOT Sample.one_schema)). reflexivity.
Defined.

